(** * larousse-searcher: the extraction pipeline of [src/lib/utils.js]

    A shallow embedding of the module's functions ([getPage], [getWord],
    [getSuggestions], [getGramCat], [getWords], [getOrigin],
    [getDefinitionsList], [getDefinition], [getDefinitionOnyms],
    [getTextOnyms], [getDefinitions], [search]) and the properties of the
    specification that concern them.

    JavaScript strings are sequences of UTF-16 code units; exceptions are an
    error monad; the DOM produced by the parser is an inductive tree, and the
    sibling links [prev]/[next] of a node are read off the child list of its
    parent.  The three external collaborators (URL resolution, the HTTP
    client, the HTML parser with its selector engine) are section
    variables. *)

From Stdlib Require Import Ascii String DecimalString.
From Stdlib Require Import List NArith ZArith Bool Arith Lia.
Import ListNotations.

Set Implicit Arguments.
Set Warnings "-register-all".

(* ================================================================== *)
(** ** JavaScript strings *)
(* ================================================================== *)

Module JsString.

(** A string is its list of code units. *)
Definition jstring : Type := list N.

(** Literals: every character of an ASCII literal is one code unit. *)
Definition js (s : string) : jstring :=
  List.map N_of_ascii (list_ascii_of_string s).
Arguments js s%_string.

(** [a == b] on two strings. *)
Fixpoint eqb (a b : jstring) : bool :=
  match a, b with
  | [], [] => true
  | x :: a', y :: b' => N.eqb x y && eqb a' b'
  | _, _ => false
  end.

(** [s.startsWith(p)] *)
Fixpoint startsWith (p s : jstring) : bool :=
  match p, s with
  | [], _ => true
  | x :: p', y :: s' => N.eqb x y && startsWith p' s'
  | _ :: _, [] => false
  end.

(** [s.endsWith(w)]: the last [w.length] code units of [s] are [w]. *)
Definition endsWith (s w : jstring) : bool :=
  (length w <=? length s) && eqb (skipn (length s - length w) s) w.

(** [s.includes(sub)] *)
Fixpoint includes (s sub : jstring) : bool :=
  startsWith sub s ||
  match s with
  | [] => false
  | _ :: rest => includes rest sub
  end.

(** The scan behind [s.split(sep)] for a non-empty separator: [cur] is the
    fragment being read (reversed), [skip] counts the code units of a
    separator that was just matched and is still to be passed over. *)
Fixpoint split_from (sep : jstring) (skip : nat) (cur s : jstring)
  : list jstring :=
  match s with
  | [] => [rev cur]
  | c :: rest =>
      match skip with
      | S k => split_from sep k cur rest
      | O =>
          if startsWith sep s
          then rev cur :: split_from sep (length sep - 1) [] rest
          else split_from sep 0 (c :: cur) rest
      end
  end.

(** [s.split(sep)].  With the empty separator JavaScript yields the code
    units one by one. *)
Definition split (s sep : jstring) : list jstring :=
  match sep with
  | [] => List.map (fun c => [c]) s
  | _ :: _ => split_from sep 0 [] s
  end.

(** White space and line terminators, as [trim] understands them. *)
Definition is_space (c : N) : bool :=
  ((9 <=? c) && (c <=? 13) || (c =? 32) || (c =? 160) || (c =? 5760)
   || (8192 <=? c) && (c <=? 8202) || (c =? 8232) || (c =? 8233)
   || (c =? 8239) || (c =? 8287) || (c =? 12288) || (c =? 65279))%N.

Fixpoint trimStart (s : jstring) : jstring :=
  match s with
  | [] => []
  | c :: rest => if is_space c then trimStart rest else s
  end.

Definition trimEnd (s : jstring) : jstring := rev (trimStart (rev s)).

(** [s.trim()] *)
Definition trim (s : jstring) : jstring := trimEnd (trimStart s).

(** [s.replace(pat, rep)] with a string pattern: the first occurrence
    only ([rep] without dollar patterns). *)
Fixpoint replace (s pat rep : jstring) : jstring :=
  if startsWith pat s then rep ++ skipn (length pat) s
  else match s with
       | [] => []
       | c :: rest => c :: replace rest pat rep
       end.

(** [s.replace(/\(|\)/g, "")]: every parenthesis is removed. *)
Definition stripParens (s : jstring) : jstring :=
  filter (fun c => negb ((c =? 40) || (c =? 41))%N) s.

(** Decimal rendering of a number inside a template literal. *)
Definition ofNumber (n : N) : jstring :=
  js (NilEmpty.string_of_uint (N.to_uint n)).

(** [xs[xs.length - k]]; [undefined] when the index is negative. *)
Definition fromEnd (A : Type) (xs : list A) (k : nat) : option A :=
  if k <=? length xs then nth_error xs (length xs - k) else None.

End JsString.
Import JsString.

(** The non-breaking space. *)
Definition nbsp : N := 160%N.
(** The line feed. *)
Definition newline : jstring := [10%N].

(* ================================================================== *)
(** ** Exceptions *)
(* ================================================================== *)

(** The values the module throws or lets escape. *)
Inductive JsError : Type :=
| TypeError                                   (* a property read on undefined or null, a call on undefined *)
| AxiosError (status : option N)              (* the client's rejection; [status] is [error.response.status] when there was a response *)
| Error (message : jstring) (cause : option JsError).   (* [new Error(message, {cause})] *)

Inductive result (A : Type) : Type :=
| Ok (a : A)
| Throw (e : JsError).
Arguments Ok {A} a.
Arguments Throw {A} e.

Definition bind (A B : Type) (m : result A) (k : A -> result B) : result B :=
  match m with
  | Ok a => k a
  | Throw e => Throw e
  end.

Declare Scope js_scope.
Delimit Scope js_scope with js.
Notation "x <- m ;; k" := (bind m (fun x => k))
  (at level 61, m at next level, right associativity) : js_scope.
Open Scope js_scope.

(** A property read or method call on a value that may be [undefined] (or
    [null]): it throws a [TypeError] when the value is missing. *)
Definition the (A : Type) (o : option A) : result A :=
  match o with
  | Some a => Ok a
  | None => Throw TypeError
  end.

(** [xs.forEach(x => ...)] on a callback that updates an accumulator and may
    throw. *)
Fixpoint forEach (A S : Type) (f : S -> A -> result S) (xs : list A) (s : S)
  : result S :=
  match xs with
  | [] => Ok s
  | x :: rest => s' <- f s x ;; forEach f rest s'
  end.

(* ================================================================== *)
(** ** The document tree *)
(* ================================================================== *)

Module Dom.

(** The [type] tag of a node. *)
Inductive NodeType : Type := text | tag | comment | script | style.

Definition NodeType_eqb (a b : NodeType) : bool :=
  match a, b with
  | text, text | tag, tag | comment, comment
  | script, script | style, style => true
  | _, _ => false
  end.

(** The three types an element can have. *)
Inductive ElementType : Type := Tag | Script | Style.

(** An element's [attribs] object: attribute names to values. *)
Definition Attribs : Type := list (jstring * jstring).

(** Text and comment nodes carry [data]; elements carry [attribs] and
    [children]. *)
Inductive Node : Type :=
| TextNode (data : jstring)
| CommentNode (data : jstring)
| Element (kind : ElementType) (name : jstring) (attribs : Attribs)
          (children : list Node).

(** [n.type] *)
Definition type (n : Node) : NodeType :=
  match n with
  | TextNode _ => text
  | CommentNode _ => comment
  | Element Tag _ _ _ => tag
  | Element Script _ _ _ => script
  | Element Style _ _ _ => style
  end.

(** [n.data]: [undefined] on an element. *)
Definition data (n : Node) : option jstring :=
  match n with
  | TextNode d | CommentNode d => Some d
  | Element _ _ _ _ => None
  end.

(** [n.children]: [undefined] on a text or comment node. *)
Definition children (n : Node) : option (list Node) :=
  match n with
  | Element _ _ _ cs => Some cs
  | _ => None
  end.

(** [n.attribs]: [undefined] on a text or comment node. *)
Definition attribs (n : Node) : option Attribs :=
  match n with
  | Element _ _ a _ => Some a
  | _ => None
  end.

(** [attribs[key]] *)
Fixpoint attr (a : Attribs) (key : jstring) : option jstring :=
  match a with
  | [] => None
  | (k, v) :: rest => if eqb k key then Some v else attr rest key
  end.

(** [x == "literal"] where [x] may be [undefined]. *)
Definition looseEq (x : option jstring) (lit : jstring) : bool :=
  match x with
  | Some s => eqb s lit
  | None => false
  end.

(** The parsed page as the module uses it: a selector to the elements it
    matches, in document order. *)
Definition Content : Type := jstring -> list Node.

End Dom.
Import Dom.

(** Iteration over the children of one parent, in document order.  The
    callback sees, besides the child, what the child's sibling links give:
    [prevs] are the earlier siblings, nearest first (so [child.prev] is its
    head and [child.prev.prev] its second element), and [next] is
    [child.next] ([None] for [null]). *)
Fixpoint forEachChild (S : Type)
    (f : S -> list Node -> Node -> option Node -> result S)
    (prevs cs : list Node) (s : S) : result S :=
  match cs with
  | [] => Ok s
  | child :: rest =>
      s' <- f s prevs child (hd_error rest) ;;
      forEachChild f (child :: prevs) rest s'
  end.

(* ================================================================== *)
(** ** The values the module builds *)
(* ================================================================== *)

(** A primitive-valued field: [null], a string or a number. *)
Inductive JsPrim : Type :=
| JsNull
| JsStr (s : jstring)
| JsNum (n : Z).

(** An object-valued field: [null], the empty object [{}], or an object with
    the fields of [A]. *)
Inductive JsObject (A : Type) : Type :=
| ObjNull
| ObjEmpty
| Obj (a : A).
Arguments ObjNull {A}.
Arguments ObjEmpty {A}.
Arguments Obj {A} a.

Definition isNull (A : Type) (o : JsObject A) : bool :=
  match o with
  | ObjNull => true
  | _ => false
  end.

(** [{word, url}] *)
Module Suggestion.
Record t : Type := make { word : jstring; url : jstring }.
End Suggestion.

(** A synonym or antonym.  [word] is [None] when the stored value is
    [undefined]; [url] and [info] are [None] when the object has no such
    field. *)
Module Onym.
Record t : Type := make
  { word : option jstring; url : option jstring; info : option jstring }.
End Onym.

(** The two values of [onyms.type]. *)
Module OnymType.
Inductive t : Type := synonyms | antonyms.
End OnymType.

(** [{type, list}], the value of [getDefinitionOnyms]. *)
Module Onyms.
Record t : Type := make { type : OnymType.t; list : list Onym.t }.
End Onyms.

(** One definition of the list. *)
Module Def.
Record t : Type := make
  { num : JsPrim;
    definition : jstring;
    examples : list jstring;
    synonyms : list Onym.t;
    antonyms : list Onym.t }.

Definition set_num (v : JsPrim) (d : t) : t :=
  make v (definition d) (examples d) (synonyms d) (antonyms d).
Definition set_definition (v : jstring) (d : t) : t :=
  make (num d) v (examples d) (synonyms d) (antonyms d).
Definition set_examples (v : list jstring) (d : t) : t :=
  make (num d) (definition d) v (synonyms d) (antonyms d).
(** [definition[type] = list] *)
Definition set_onyms (ty : OnymType.t) (v : list Onym.t) (d : t) : t :=
  match ty with
  | OnymType.synonyms => make (num d) (definition d) (examples d) v (antonyms d)
  | OnymType.antonyms => make (num d) (definition d) (examples d) (synonyms d) v
  end.
End Def.

(** [{words, gramCat, origin, list}] *)
Module Definitions.
Record t : Type := make
  { words : list (list jstring);
    gramCat : jstring;
    origin : jstring;
    list : list Def.t }.
End Definitions.

(** The server's answer as [search] reads it: [page.data] and
    [page.request.res.responseUrl]. *)
Module Response.
Record t : Type := make { data : jstring; responseUrl : jstring }.
End Response.

(** The value [search] resolves to. *)
Module SearchResult.
Record t : Type := make
  { find : bool;
    word : jstring;
    url : jstring;
    definitions : JsObject Definitions.t;
    suggestions : list Suggestion.t }.
End SearchResult.

(* ================================================================== *)
(** ** The module *)
(* ================================================================== *)

Definition dquote : N := 34%N.

Definition LAROUSSE_URL : jstring := js "https://www.larousse.fr/".
Definition DICTIONNARY_URL : jstring :=
  js "https://www.larousse.fr/dictionnaires/francais/".

(** The selectors the module queries the page with. *)
Definition SEL_SUGGESTIONS_EXIST : jstring :=
  js ".wrapper-search > article:not(.sel) ~ .banner-title > .item-result > a"
  ++ js ", .wrapper-search > section:not(.banner-title ~ section) > article:not(.sel, .sous-article) > .item-result > a".
Definition SEL_SUGGESTIONS_CORRECTOR : jstring :=
  js ".corrector > ul > li > h3 > a".
Definition SEL_GRAMCAT : jstring := js ".Zone-Entree1 > .CatgramDefinition".
Definition SEL_WORDS : jstring := js ".Zone-Entree1 > h2".
Definition SEL_ORIGIN : jstring := js ".Zone-Entree1 > .OrigineDefinition".
Definition SEL_DEFINITIONS : jstring :=
  js ".Definitions:first-of-type > .DivisionDefinition".

(** [n.type == "tag" && n.attribs.class == cls] *)
Definition isTagOfClass (n : Node) (cls : jstring) : result bool :=
  if NodeType_eqb (Dom.type n) tag
  then a <- the (attribs n) ;; Ok (looseEq (attr a (js "class")) cls)
  else Ok false.

(** [n.children[0]] *)
Definition firstChild (n : Node) : result Node :=
  cs <- the (children n) ;; the (nth_error cs 0).

(** [n.children[0].data], the value before any method is called on it. *)
Definition firstChildData (n : Node) : result (option jstring) :=
  c <- firstChild n ;; Ok (data c).

(** [word = url.split("/")[url.split("/").length - 2]] *)
Definition getWord (url : jstring) : result jstring :=
  match fromEnd (split url (js "/")) 2 with
  | Some word => Ok word
  | None =>
      Throw (Error (js "Invalid argument : failed to get word from url "
                      ++ [dquote] ++ url ++ [dquote] ++ js ".") None)
  end.

(** The label test of [getDefinitionOnyms]:
    [["Synonyme :", "Synonymes :"].includes(label)]. *)
Definition isSynonymLabel (label : option jstring) : bool :=
  looseEq label (js "Synonyme :") || looseEq label (js "Synonymes :").

(** The selector of [getSuggestions]: the alternate entries of a page that
    exists, the corrector list of one that does not. *)
Definition suggestionSelector (exist : bool) : jstring :=
  if exist then SEL_SUGGESTIONS_EXIST else SEL_SUGGESTIONS_CORRECTOR.

(** The test of [getDefinition] on the text of a text child: it holds no
    newline and its trimmed form is not empty. *)
Definition keptText (d : jstring) : bool :=
  negb (includes d newline) && negb (eqb (trim d) []).

Section Larousse.

(** [resolve(from, to)] of the "url" module, on two strings. *)
Variable resolve : jstring -> jstring -> result jstring.
(** [axios.get(url)]: the response, or the rejection. *)
Variable axios_get : jstring -> result Response.t.
(** [load(markup)]: the queryable page. *)
Variable load : jstring -> Content.

(** [resolve(from, to)] where [to] may be [undefined], which the "url"
    module rejects with a [TypeError]. *)
Definition resolveTo (from : jstring) (to : option jstring) : result jstring :=
  to' <- the to ;; resolve from to'.

(** [error.response.status] in the handler of [getPage]. *)
Definition responseStatus (error : JsError) : result N :=
  match error with
  | AxiosError status => the status
  | _ => Throw TypeError
  end.

Definition getPage (word : jstring) : result Response.t :=
  url <- resolve DICTIONNARY_URL word ;;
  match axios_get url with
  | Ok response => Ok response
  | Throw error =>
      status <- responseStatus error ;;
      Throw (Error (js "Failed to fetch page " ++ url
                      ++ js ", server responded with " ++ ofNumber status)
                   (Some error))
  end.

Definition getSuggestions (content : Content) (exist : bool)
  : result (list Suggestion.t) :=
  let selector := suggestionSelector exist in
  forEach (fun suggestions elem =>
             d <- firstChildData elem ;;
             d <- the d ;;
             a <- the (attribs elem) ;;
             u <- resolveTo LAROUSSE_URL (attr a (js "href")) ;;
             Ok (suggestions ++ [Suggestion.make (trim d) u]))
          (content selector) [].

Definition getGramCat (content : Content) : result jstring :=
  e <- the (nth_error (content SEL_GRAMCAT) 0) ;;
  d <- firstChildData e ;;
  d <- the d ;;
  Ok (trim d).

(** The inner callback of [getWords]: one child of a spelling header. *)
Definition wordsCatStep (wordsCat : list jstring) (child : Node)
  : result (list jstring) :=
  if NodeType_eqb (Dom.type child) text
  then d <- the (data child) ;;
       if negb (includes d newline)
       then Ok (wordsCat ++ split (trim d) (js ", "))
       else Ok wordsCat
  else Ok wordsCat.

Definition getWords (content : Content) : result (list (list jstring)) :=
  forEach (fun words wordsCats =>
             cs <- the (children wordsCats) ;;
             wordsCat <- forEach wordsCatStep cs [] ;;
             Ok (words ++ [wordsCat]))
          (content SEL_WORDS) [].

Definition getOrigin (content : Content) : result jstring :=
  let originContent := content SEL_ORIGIN in
  origin <-
    (if 0 <? length originContent
     then e <- the (nth_error (content SEL_ORIGIN) 0) ;;
          cs <- the (children e) ;;
          forEach (fun origin child =>
                     if NodeType_eqb (Dom.type child) text
                     then d <- the (data child) ;;
                          Ok (origin ++ stripParens d)
                     else if NodeType_eqb (Dom.type child) tag
                     then c <- firstChild child ;;
                          if NodeType_eqb (Dom.type c) tag
                          then d <- firstChildData c ;;
                               d <- the d ;;
                               Ok (origin ++ stripParens d)
                          else d <- the (data c) ;;
                               Ok (origin ++ stripParens d)
                     else Ok origin)
                  cs []
     else Ok []) ;;
  Ok (trim origin).

(** The callback of [getTextOnyms]: one fragment of the run. *)
Definition textOnymStep (onymsTextList : list jstring) (next : option Node)
    (onyms : list Onym.t) (word : jstring) : result (list Onym.t) :=
  if negb (eqb word [])
  then
    info <-
      (if looseEq (fromEnd onymsTextList 1) word
       then match next with
            | Some n =>
                marker <- isTagOfClass n (js "indicateurDefinition") ;;
                if marker
                then d <- firstChildData n ;;
                     d <- the d ;;
                     Ok (Some (trim (stripParens d)))
                else Ok None
            | None => Ok None
            end
       else Ok None) ;;
    Ok (onyms ++ [Onym.make (Some (trim word)) None info])
  else Ok onyms.

(** [next] is [onymsTextElem.next]. *)
Definition getTextOnyms (onymsTextElem : Node) (next : option Node)
  : result (list Onym.t) :=
  d <- the (data onymsTextElem) ;;
  let onymsTextList := split d (js " - ") in
  forEach (textOnymStep onymsTextList next) onymsTextList [].

(** The callback of [getDefinitionOnyms]: one child of the block. *)
Definition onymStep (lst : list Onym.t) (prevs : list Node)
    (childOnyms : Node) (next : option Node) : result (list Onym.t) :=
  if NodeType_eqb (Dom.type childOnyms) text
     && negb (looseEq (data childOnyms) (js " - "))
  then more <- getTextOnyms childOnyms next ;; Ok (lst ++ more)
  else
    renvoi <- isTagOfClass childOnyms (js "Renvois") ;;
    if renvoi
    then link <- firstChild childOnyms ;;
         word <- firstChildData link ;;
         a <- the (attribs link) ;;
         u <- resolveTo LAROUSSE_URL (attr a (js "href")) ;;
         Ok (lst ++ [Onym.make word (Some u) None])
    else Ok lst.

(** [n.prev] for the sibling [n] at the head of [prevs]: the sibling
    before it. *)
Definition prevOf (n : Node) (prevs : list Node) : option Node :=
  nth_error prevs 1.

(** [prevs] are the earlier siblings of [onymContent], nearest first. *)
Definition getDefinitionOnyms (prevs : list Node) (onymContent : Node)
  : result Onyms.t :=
  prev <- the (nth_error prevs 0) ;;
  label <- the (prevOf prev prevs) ;;
  labelText <- firstChildData label ;;
  let type :=
    if isSynonymLabel labelText then OnymType.synonyms
    else OnymType.antonyms in
  cs <- the (children onymContent) ;;
  lst <- forEachChild onymStep [] cs [] ;;
  Ok (Onyms.make type lst).

(** The callback of [getDefinition]: one child of the definition block. *)
Definition definitionStep (definition : Def.t) (prevs : list Node)
    (child : Node) (next : option Node) : result Def.t :=
  if NodeType_eqb (Dom.type child) text
     && match data child with
        | Some d => keptText d
        | None => false
        end
  then d <- the (data child) ;;
       Ok (Def.set_definition (Def.definition definition ++ d) definition)
  else if NodeType_eqb (Dom.type child) tag
  then
    a <- the (attribs child) ;;
    let class := attr a (js "class") in
    if looseEq class (js "numDef")
    then d <- firstChildData child ;;
         d <- the d ;;
         n <- the (nth_error (split (trim d) (js ".")) 0) ;;
         Ok (Def.set_num (JsStr n) definition)
    else if looseEq class (js "Renvois")
    then c <- firstChild child ;;
         d <- firstChildData c ;;
         d <- the d ;;
         Ok (Def.set_definition (Def.definition definition ++ trim d)
                                definition)
    else if looseEq class (js "ExempleDefinition")
    then d <- firstChildData child ;;
         d <- the d ;;
         Ok (Def.set_examples (Def.examples definition ++ [trim d])
                              definition)
    else if looseEq class (js "Synonymes")
    then onyms <- getDefinitionOnyms prevs child ;;
         Ok (Def.set_onyms (Onyms.type onyms) (Onyms.list onyms) definition)
    else Ok definition
  else Ok definition.

Definition getDefinition (defContent : Node) : result Def.t :=
  cs <- the (children defContent) ;;
  definition <-
    forEachChild definitionStep [] cs (Def.make JsNull [] [] [] []) ;;
  Ok (Def.set_definition
        (trim (replace (Def.definition definition) [nbsp; 58%N] []))
        definition).

Definition getDefinitionsList (content : Content) : result (list Def.t) :=
  forEach (fun lst defContent =>
             definition <- getDefinition defContent ;;
             Ok (lst ++ [definition]))
          (content SEL_DEFINITIONS) [].

Definition getDefinitions (content : Content) : result Definitions.t :=
  words <- getWords content ;;
  gramCat <- getGramCat content ;;
  origin <- getOrigin content ;;
  lst <- getDefinitionsList content ;;
  Ok (Definitions.make words gramCat origin lst).

(** The message of the error [search] throws. *)
Definition searchMessage (word : jstring) : jstring :=
  js "Failed to get data for word " ++ [dquote] ++ word ++ [dquote]
  ++ js " : the larousse website may be unavailable or modified.".

(** The body of the [try] block of [search]. *)
Definition searchBody (word : jstring) : result SearchResult.t :=
  page <- getPage word ;;
  let content := load (Response.data page) in
  let url := Response.responseUrl page in
  let find := if endsWith url word then false else true in
  wordFind <- (if find then getWord url else Ok word) ;;
  definitions <-
    (if find then d <- getDefinitions content ;; Ok (Obj d)
     else Ok ObjEmpty) ;;
  suggestions <- getSuggestions content find ;;
  Ok (SearchResult.make find wordFind url definitions suggestions).

Definition search (word : jstring) : result SearchResult.t :=
  match searchBody word with
  | Ok response => Ok response
  | Throw error => Throw (Error (searchMessage word) (Some error))
  end.

End Larousse.

(* ================================================================== *)
(** ** What the specification says, in its own words *)
(* ================================================================== *)

(** The specification's "last path segment of the resolved URL, ignoring a
    trailing slash": the last piece of the URL cut at its slashes, or the
    piece before it when the URL ends with a slash. *)
Definition spec_lastSegment (url : jstring) : option jstring :=
  if endsWith url (js "/") then fromEnd (split url (js "/")) 2
  else fromEnd (split url (js "/")) 1.

(** The specification's classification: found exactly when that segment is
    not equal to the requested word. *)
Definition spec_found (url word : jstring) : bool :=
  negb (looseEq (spec_lastSegment url) word).

(** The specification's skipped text node: one "consisting solely of a
    newline". *)
Definition spec_pureNewline (d : jstring) : bool := eqb d newline.

(** The specification's appended text node: "any other non-empty,
    non-pure-whitespace text node". *)
Definition spec_appendedText (d : jstring) : bool :=
  negb (spec_pureNewline d) && negb (eqb d []) && negb (eqb (trim d) []).

(* ================================================================== *)
(** ** What is read off one node *)
(* ================================================================== *)

(** The suggestion [getSuggestions] makes of one matched element: the
    trimmed text of its first child and its [href] resolved against the
    site. *)
Definition isSuggestionOf (resolve : jstring -> jstring -> result jstring)
    (elem : Node) (s : Suggestion.t) : Prop :=
  exists d a h u,
    firstChildData elem = Ok (Some d) /\
    attribs elem = Some a /\
    attr a (js "href") = Some h /\
    resolve LAROUSSE_URL h = Ok u /\
    s = Suggestion.make (trim d) u.

(** The onym [getTextOnyms] makes of a fragment that gets no usage note. *)
Definition plainOnym (w : jstring) : Onym.t :=
  Onym.make (Some (trim w)) None None.

(** A fragment [getTextOnyms] keeps: it is not the empty string. *)
Definition keptFragment (w : jstring) : bool := negb (eqb w []).

(** What every step of [getDefinition] keeps: [num] is [null] or a string
    without a dot, and every example is trimmed. *)
Definition definitionInvariant (d : Def.t) : Prop :=
  (Def.num d = JsNull \/
   exists n, Def.num d = JsStr n /\ includes n (js ".") = false) /\
  Forall (fun e => trim e = e) (Def.examples d).

(** An error and, through [cause], the errors behind it. *)
Fixpoint causes (e : JsError) : list JsError :=
  e :: match e with
       | Error _ (Some cause) => causes cause
       | _ => []
       end.

(* ================================================================== *)
(** ** Sample documents and collaborators *)
(* ================================================================== *)

Module Sample.

(** [resolve] on a base that ends with a slash and a relative path without
    a leading slash. *)
Definition resolve (from to : jstring) : result jstring := Ok (from ++ to).

(** A server that answers at the requested URL, without a redirect. *)
Definition echo (url : jstring) : result Response.t :=
  Ok (Response.make [] url).

(** A server that redirects a word to its numbered entry. *)
Definition redirect (url : jstring) : result Response.t :=
  Ok (Response.make [] (url ++ js "/26524")).

(** A server that redirects to the entry URL written with a final slash. *)
Definition redirectSlash (url : jstring) : result Response.t :=
  Ok (Response.make [] (url ++ js "/")).

(** A server that refuses with status 503. *)
Definition unavailable (url : jstring) : result Response.t :=
  Throw (AxiosError (Some 503%N)).

Definition elem (name class : string) (kids : list Node) : Node :=
  Element Tag (js name) [(js "class", js class)] kids.

(** A cross-reference: the marker element around its link. *)
Definition renvoi (href text : string) : Node :=
  elem "span" "Renvois"
    [Element Tag (js "a") [(js "class", js "lienarticle"); (js "href", js href)]
             [TextNode (js text)]].

Definition txt (s : string) : Node := TextNode (js s).

(** The usage marker "(familier)". *)
Definition familier : Node :=
  elem "span" "indicateurDefinition" [txt "(familier)"].

(** A numbered definition of "dormir", with an example, the plural
    introducer label and a synonym block. *)
Definition dormir1 : Node :=
  elem "li" "DivisionDefinition"
    [ elem "span" "numDef" [txt "1."];
      TextNode (js "Etre dans le sommeil" ++ [nbsp; 58%N; 32%N]);
      elem "span" "ExempleDefinition" [txt "Dormir profondement."];
      elem "p" "LibelleSynonyme" [txt "Synonymes :"];
      txt " ";
      elem "p" "Synonymes"
        [ txt "reposer - ";
          renvoi "dictionnaires/francais/roupiller/69992" "roupiller";
          txt " ";
          familier ] ].

(** The same block with the label written without its capital. *)
Definition dormirLowercaseLabel : Node :=
  elem "li" "DivisionDefinition"
    [ elem "p" "LibelleSynonyme" [txt "synonymes :"];
      txt " ";
      elem "p" "Synonymes" [txt "reposer"] ].

(** The page of a found word. *)
Definition dormirPage : Content := fun selector =>
  if eqb selector SEL_GRAMCAT
  then [elem "p" "CatgramDefinition" [txt " verbe intransitif "]]
  else if eqb selector SEL_WORDS
  then [elem "h2" "AdresseDefinition" [txt "dormir"]]
  else if eqb selector SEL_DEFINITIONS
  then [dormir1]
  else [].

(** The page of a word the dictionary does not know: a corrector list. *)
Definition correctorPage : Content := fun selector =>
  if eqb selector SEL_SUGGESTIONS_CORRECTOR
  then [Element Tag (js "a") [(js "href", js "dictionnaires/francais/dormir")]
                [txt " dormir "]]
  else [].

(** A page without any of the blocks the module looks for. *)
Definition emptyPage : Content := fun _ => [].

(** A definition block whose text holds a line break. *)
Definition wrappedText : Node :=
  elem "li" "DivisionDefinition" [TextNode (js "Fait de" ++ newline ++ js "dormir")].

(** A definition block reduced to its number and its text. *)
Definition numbered : Node :=
  elem "li" "DivisionDefinition"
    [ elem "span" "numDef" [txt "1."]; txt "Etre dans le sommeil" ].

(** The label and the separator that precede a synonym block. *)
Definition labelled (label : string) : list Node :=
  [ txt " "; elem "p" "LibelleSynonyme" [txt label] ].

(** A synonym block of one plain word. *)
Definition reposerBlock : Node := elem "p" "Synonymes" [txt "reposer"].

(** The onym of a plain word, with or without a usage note. *)
Definition plain (word : string) : Onym.t :=
  Onym.make (Some (js word)) None None.
Definition noted (word note : string) : Onym.t :=
  Onym.make (Some (js word)) None (Some (js note)).

(** What [getDefinition] makes of [dormir1]. *)
Definition dormir1Def : Def.t :=
  Def.make (JsStr (js "1")) (js "Etre dans le sommeil")
    [js "Dormir profondement."]
    [ plain "reposer";
      Onym.make (Some (js "roupiller"))
        (Some (LAROUSSE_URL ++ js "dictionnaires/francais/roupiller/69992"))
        None;
      noted "" "familier" ]
    [].

(** What [search] answers for "dormir" on [redirect] and [dormirPage]. *)
Definition dormirResult : SearchResult.t :=
  SearchResult.make true (js "dormir")
    (DICTIONNARY_URL ++ js "dormir/26524")
    (Obj (Definitions.make [[js "dormir"]] (js "verbe intransitif") []
                           [dormir1Def]))
    [].

(** The same entry reached through the URL written with a final slash. *)
Definition dormirSlashResult : SearchResult.t :=
  SearchResult.make true (js "dormir") (DICTIONNARY_URL ++ js "dormir/")
    (SearchResult.definitions dormirResult) [].

(** What [search] answers for "dormirr" on [echo] and [correctorPage]. *)
Definition dormirrResult : SearchResult.t :=
  SearchResult.make false (js "dormirr") (DICTIONNARY_URL ++ js "dormirr")
    ObjEmpty
    [Suggestion.make (js "dormir")
       (LAROUSSE_URL ++ js "dictionnaires/francais/dormir")].

(** What [search] answers for "24" on [redirect], whatever the page. *)
Definition suffixResult : SearchResult.t :=
  SearchResult.make false (js "24") (DICTIONNARY_URL ++ js "24/26524")
    ObjEmpty [].

(** A server that cannot be reached: the rejection carries no response. *)
Definition offline (url : jstring) : result Response.t :=
  Throw (AxiosError None).

(** A suggestion link without its [href]. *)
Definition brokenSuggestions : Content := fun selector =>
  if eqb selector SEL_SUGGESTIONS_CORRECTOR
  then [Element Tag (js "a") [] [txt "dormir"]]
  else [].

(** A definition block that opens with its synonym block: no label comes
    before it. *)
Definition unlabelled : Node :=
  elem "li" "DivisionDefinition" [reposerBlock].

(** An origin marker with a plain text, a directly nested and a doubly
    nested element. *)
Definition originPage : Content := fun selector =>
  if eqb selector SEL_ORIGIN
  then [elem "p" "OrigineDefinition"
          [ txt " (latin ";
            elem "i" "" [txt "dormire"];
            elem "span" "" [elem "i" "" [txt ")"]] ]]
  else [].

End Sample.

(* ================================================================== *)
(** ** Facts about strings *)
(* ================================================================== *)

Lemma eqb_refl (a : jstring) : eqb a a = true.
Proof.
  induction a as [|x a IH]; simpl; [reflexivity|].
  now rewrite N.eqb_refl, IH.
Qed.

Lemma eqb_eq (a b : jstring) : eqb a b = true <-> a = b.
Proof.
  split; [|intros ->; apply eqb_refl].
  revert b; induction a as [|x a IH]; intros [|y b]; simpl; try easy.
  intros H; apply andb_true_iff in H as [Hx Hab].
  apply N.eqb_eq in Hx; subst y. now rewrite (IH b Hab).
Qed.

Lemma eqb_neq (a b : jstring) : eqb a b = false <-> a <> b.
Proof.
  rewrite <- eqb_eq. destruct (eqb a b); split; congruence.
Qed.

Lemma looseEq_Some (x : option jstring) (lit : jstring) :
  looseEq x lit = true <-> x = Some lit.
Proof.
  destruct x as [s|]; simpl; [|split; discriminate].
  rewrite eqb_eq. split; congruence.
Qed.

Lemma startsWith_app (p r : jstring) : startsWith p (p ++ r) = true.
Proof.
  induction p as [|x p IH]; simpl; [reflexivity|].
  now rewrite N.eqb_refl, IH.
Qed.

Lemma startsWith_spec (p s : jstring) :
  startsWith p s = true <-> exists r, s = p ++ r.
Proof.
  split.
  - revert s; induction p as [|x p IH]; intros s H.
    + now exists s.
    + destruct s as [|y s]; simpl in H; [discriminate|].
      apply andb_true_iff in H as [Hx Hp].
      apply N.eqb_eq in Hx; subst y.
      destruct (IH s Hp) as [r ->]. now exists r.
  - intros [r ->]. apply startsWith_app.
Qed.

(** [endsWith] is the suffix relation on strings. *)
Lemma endsWith_spec (s w : jstring) :
  endsWith s w = true <-> exists p, s = p ++ w.
Proof.
  unfold endsWith. rewrite andb_true_iff, Nat.leb_le, eqb_eq. split.
  - intros [_ H]. exists (firstn (length s - length w) s).
    rewrite <- (firstn_skipn (length s - length w) s) at 1.
    now f_equal.
  - intros [p ->]. rewrite length_app. split; [lia|].
    replace (length p + length w - length w) with (length p) by lia.
    now rewrite skipn_app, skipn_all, Nat.sub_diag.
Qed.

Lemma includes_unfold (s sub : jstring) :
  includes s sub =
  startsWith sub s || match s with [] => false | _ :: rest => includes rest sub end.
Proof. destruct s; reflexivity. Qed.

Lemma includes_app (a w b : jstring) : includes (a ++ w ++ b) w = true.
Proof.
  induction a as [|x a IH].
  - rewrite includes_unfold. cbn [app]. now rewrite startsWith_app.
  - rewrite includes_unfold. cbn [app]. rewrite IH. apply orb_true_r.
Qed.

Lemma split_from_length (sep : jstring) (s : jstring) (skip : nat) (cur : jstring) :
  1 <= length (split_from sep skip cur s).
Proof.
  revert skip cur; induction s as [|c s IH]; intros skip cur; simpl; [lia|].
  destruct skip; [|apply IH].
  destruct (startsWith sep (c :: s)); simpl; [lia|apply IH].
Qed.

(** A string without the separator is its own single fragment. *)
Lemma split_from_absent (sep : jstring) (s cur : jstring) :
  sep <> [] -> includes s sep = false ->
  split_from sep 0 cur s = [rev cur ++ s].
Proof.
  intros Hsep. revert cur; induction s as [|c s IH]; intros cur H.
  - simpl. now rewrite app_nil_r.
  - simpl in H. apply orb_false_iff in H as [H1 H2].
    cbn [split_from]. rewrite H1, (IH (c :: cur) H2). simpl.
    now rewrite <- app_assoc.
Qed.

(** With a one-unit separator, a string has a second-to-last fragment exactly
    when the separator occurs in it. *)
Lemma split_from_single_length (c0 : N) (s cur : jstring) :
  2 <= length (split_from [c0] 0 cur s) <-> includes s [c0] = true.
Proof.
  revert cur; induction s as [|c s IH]; intros cur.
  - simpl. split; [lia|discriminate].
  - cbn [split_from includes startsWith length Nat.sub].
    destruct (c0 =? c)%N; simpl.
    + split; [reflexivity|]. intros _.
      pose proof (split_from_length [c0] s 0 []). lia.
    + apply IH.
Qed.

(* ================================================================== *)
(** ** Facts about the error monad *)
(* ================================================================== *)

Lemma bind_Ok (A B : Type) (m : result A) (k : A -> result B) (b : B) :
  bind m k = Ok b -> exists a, m = Ok a /\ k a = Ok b.
Proof.
  destruct m as [a|e]; simpl; [|discriminate]. intros H. now exists a.
Qed.

Lemma the_Ok (A : Type) (o : option A) (a : A) : the o = Ok a <-> o = Some a.
Proof.
  destruct o; simpl; split; congruence.
Qed.

(* ================================================================== *)
(** ** The orchestrator: [search], [getWord], [getSuggestions] *)
(* ================================================================== *)

Section SearchFacts.

Variable resolve : jstring -> jstring -> result jstring.
Variable axios_get : jstring -> result Response.t.
Variable load : jstring -> Content.

(** What a successful run of the [try] block went through. *)
Lemma searchBody_Ok (word : jstring) (r : SearchResult.t) :
  searchBody resolve axios_get load word = Ok r ->
  exists page,
    getPage resolve axios_get word = Ok page /\
    SearchResult.url r = Response.responseUrl page /\
    SearchResult.find r = negb (endsWith (Response.responseUrl page) word) /\
    (if SearchResult.find r then getWord (SearchResult.url r) else Ok word)
      = Ok (SearchResult.word r) /\
    (if SearchResult.find r
     then d <- getDefinitions resolve (load (Response.data page)) ;; Ok (Obj d)
     else Ok ObjEmpty) = Ok (SearchResult.definitions r) /\
    getSuggestions resolve (load (Response.data page)) (SearchResult.find r)
      = Ok (SearchResult.suggestions r).
Proof.
  unfold searchBody. intros H.
  apply bind_Ok in H as (page & Hpage & H).
  apply bind_Ok in H as (wordFind & Hword & H).
  apply bind_Ok in H as (defs & Hdefs & H).
  apply bind_Ok in H as (sugg & Hsugg & H).
  injection H as <-. exists page. cbn [SearchResult.url SearchResult.find
    SearchResult.word SearchResult.definitions SearchResult.suggestions].
  destruct (endsWith (Response.responseUrl page) word); cbn [negb];
    repeat split; assumption.
Qed.

Lemma search_Ok (word : jstring) (r : SearchResult.t) :
  search resolve axios_get load word = Ok r <->
  searchBody resolve axios_get load word = Ok r.
Proof.
  unfold search.
  destruct (searchBody resolve axios_get load word); split; congruence.
Qed.

(** [getSuggestions] reads the page through one selector only. *)
Lemma getSuggestions_selector (content content' : Content) (exist : bool) :
  content' (suggestionSelector exist) = content (suggestionSelector exist) ->
  getSuggestions resolve content' exist = getSuggestions resolve content exist.
Proof.
  unfold getSuggestions, suggestionSelector. now intros ->.
Qed.

(** [getWord] returns the piece before the last one, and throws exactly on
    a URL without a slash. *)
Lemma getWord_Ok (url w : jstring) :
  getWord url = Ok w <-> fromEnd (split url (js "/")) 2 = Some w.
Proof.
  unfold getWord. destruct (fromEnd (split url (js "/")) 2); split; congruence.
Qed.

Lemma getWord_total (url : jstring) :
  includes url (js "/") = true <-> exists w, getWord url = Ok w.
Proof.
  rewrite <- (split_from_single_length 47%N url []).
  unfold getWord, fromEnd. change (split url (js "/")) with (split_from [47%N] 0 [] url).
  destruct (2 <=? length (split_from [47%N] 0 [] url)) eqn:E.
  - apply Nat.leb_le in E. split; [intros _|easy].
    destruct (nth_error (split_from [47%N] 0 [] url)
                        (length (split_from [47%N] 0 [] url) - 2))
      as [w|] eqn:N.
    + now exists w.
    + apply nth_error_None in N. lia.
  - apply Nat.leb_gt in E. split; [lia|]. intros [w Hw]. discriminate.
Qed.

(** C1 (amended): the flag is the negated suffix test.  In every result of
    [search], [find] is false exactly when the resolved URL, as a string,
    ends with the requested word, and true exactly when it does not; the
    URL is not cut into segments and a final slash is not set aside. *)
Theorem search_find_suffix (word : jstring) (r : SearchResult.t) :
  search resolve axios_get load word = Ok r ->
  (exists page, getPage resolve axios_get word = Ok page /\
                SearchResult.url r = Response.responseUrl page) /\
  (SearchResult.find r = false <->
     exists prefix, SearchResult.url r = prefix ++ word) /\
  (SearchResult.find r = true <->
     ~ exists prefix, SearchResult.url r = prefix ++ word).
Proof.
  intros H. apply search_Ok, searchBody_Ok in H
    as (page & Hpage & Hurl & Hfind & _).
  split; [now exists page|].
  rewrite <- endsWith_spec, Hurl, Hfind.
  destruct (endsWith (Response.responseUrl page) word); cbn [negb];
    repeat split; congruence.
Qed.

(** C2 (amended): in every result classified as found, [word] is the
    second-to-last piece of the resolved URL cut at its slashes, whether or
    not the URL ends with a slash (so it is the specification's segment
    when the URL does end with one); in every result classified as
    not found, [word] is the requested word. *)
Theorem search_word_field (word : jstring) (r : SearchResult.t) :
  search resolve axios_get load word = Ok r ->
  (SearchResult.find r = true ->
     fromEnd (split (SearchResult.url r) (js "/")) 2
       = Some (SearchResult.word r)) /\
  (SearchResult.find r = true ->
     endsWith (SearchResult.url r) (js "/") = true ->
     spec_lastSegment (SearchResult.url r) = Some (SearchResult.word r)) /\
  (SearchResult.find r = false -> SearchResult.word r = word).
Proof.
  intros H. apply search_Ok, searchBody_Ok in H
    as (page & _ & _ & _ & Hword & _).
  destruct (SearchResult.find r).
  - apply getWord_Ok in Hword. repeat split; try discriminate.
    + intros _. exact Hword.
    + intros _ Hslash. unfold spec_lastSegment. now rewrite Hslash.
  - repeat split; try discriminate. intros _. congruence.
Qed.

(** C3 (amended): in every result of [search] the [definitions] field is
    never [null]: it is the extracted entry when [find] is true and the
    empty object when [find] is false.  The one [suggestions] list is
    filled in both branches, from the matches of the selector of the
    branch taken and of no other selector. *)
Theorem search_definitions_suggestions (word : jstring) (r : SearchResult.t) :
  search resolve axios_get load word = Ok r ->
  exists page,
    getPage resolve axios_get word = Ok page /\
    let content := load (Response.data page) in
    (SearchResult.find r = true ->
       exists d, getDefinitions resolve content = Ok d /\
                 SearchResult.definitions r = Obj d) /\
    (SearchResult.find r = false -> SearchResult.definitions r = ObjEmpty) /\
    isNull (SearchResult.definitions r) = false /\
    (forall content' : Content,
        content' (suggestionSelector (SearchResult.find r))
          = content (suggestionSelector (SearchResult.find r)) ->
        getSuggestions resolve content' (SearchResult.find r)
          = Ok (SearchResult.suggestions r)).
Proof.
  intros H. apply search_Ok, searchBody_Ok in H
    as (page & Hpage & _ & _ & _ & Hdefs & Hsugg).
  exists page. split; [exact Hpage|]. cbn zeta.
  assert (Hsel : forall content' : Content,
             content' (suggestionSelector (SearchResult.find r))
               = load (Response.data page) (suggestionSelector (SearchResult.find r)) ->
             getSuggestions resolve content' (SearchResult.find r)
               = Ok (SearchResult.suggestions r)).
  { intros content' E. now rewrite (getSuggestions_selector _ _ _ E). }
  destruct (SearchResult.find r).
  - apply bind_Ok in Hdefs as (d & Hd & E). injection E as E.
    rewrite <- E. repeat split; try discriminate; try assumption.
    intros _. now exists d.
  - injection Hdefs as E. rewrite <- E.
    repeat split; try discriminate; assumption.
Qed.

(** Whatever the [try] block of [search] throws comes out as one wrapping
    error: an [Error] whose message quotes the requested word and whose
    cause is what [getPage], [getWord], [getDefinitions] or
    [getSuggestions] threw; and a result is returned only when the whole
    block succeeded. *)
Theorem search_failure_wrapped (word : jstring) :
  match search resolve axios_get load word with
  | Ok r => searchBody resolve axios_get load word = Ok r
  | Throw e =>
      exists cause,
        e = Error (searchMessage word) (Some cause) /\
        searchBody resolve axios_get load word = Throw cause
  end /\
  includes (searchMessage word) word = true /\
  (forall cause,
      getPage resolve axios_get word = Throw cause ->
      search resolve axios_get load word
        = Throw (Error (searchMessage word) (Some cause))) /\
  (forall page cause,
      getPage resolve axios_get word = Ok page ->
      endsWith (Response.responseUrl page) word = false ->
      getWord (Response.responseUrl page) = Throw cause ->
      search resolve axios_get load word
        = Throw (Error (searchMessage word) (Some cause))) /\
  (forall page w cause,
      getPage resolve axios_get word = Ok page ->
      endsWith (Response.responseUrl page) word = false ->
      getWord (Response.responseUrl page) = Ok w ->
      getDefinitions resolve (load (Response.data page)) = Throw cause ->
      search resolve axios_get load word
        = Throw (Error (searchMessage word) (Some cause))) /\
  (forall page cause,
      getPage resolve axios_get word = Ok page ->
      endsWith (Response.responseUrl page) word = true ->
      getSuggestions resolve (load (Response.data page)) false = Throw cause ->
      search resolve axios_get load word
        = Throw (Error (searchMessage word) (Some cause))) /\
  (forall page w d cause,
      getPage resolve axios_get word = Ok page ->
      endsWith (Response.responseUrl page) word = false ->
      getWord (Response.responseUrl page) = Ok w ->
      getDefinitions resolve (load (Response.data page)) = Ok d ->
      getSuggestions resolve (load (Response.data page)) true = Throw cause ->
      search resolve axios_get load word
        = Throw (Error (searchMessage word) (Some cause))).
Proof.
  split; [|split; [|repeat split]].
  - unfold search.
    destruct (searchBody resolve axios_get load word) as [r|e];
      [reflexivity|]. now exists e.
  - unfold searchMessage. rewrite app_assoc. apply includes_app.
  - intros cause H. unfold search, searchBody. now rewrite H.
  - intros page cause H E W. unfold search, searchBody.
    rewrite H. cbn [bind]. now rewrite E, W.
  - intros page w cause H E W D. unfold search, searchBody.
    rewrite H. cbn [bind]. rewrite E, W. cbn [bind]. now rewrite D.
  - intros page cause H E S. unfold search, searchBody.
    rewrite H. cbn [bind]. rewrite E. cbn [bind]. now rewrite S.
  - intros page w d cause H E W D S. unfold search, searchBody.
    rewrite H. cbn [bind]. rewrite E, W. cbn [bind]. rewrite D.
    cbn [bind]. now rewrite S.
Qed.

End SearchFacts.

(* ================================================================== *)
(** ** The extractors: onyms and definitions *)
(* ================================================================== *)

(** A loop whose every step appends items with property [P] appends, as a
    whole, items with property [P]. *)
Lemma forEach_appends (A B : Type) (P : B -> Prop)
    (f : list B -> A -> result (list B)) :
  (forall acc x acc', f acc x = Ok acc' ->
     exists more, acc' = acc ++ more /\ Forall P more) ->
  forall xs acc acc', forEach f xs acc = Ok acc' ->
     exists more, acc' = acc ++ more /\ Forall P more.
Proof.
  intros Hf xs; induction xs as [|x xs IH]; intros acc acc' H; simpl in H.
  - injection H as <-. exists []. now rewrite app_nil_r.
  - apply bind_Ok in H as (mid & Hmid & H).
    destruct (Hf _ _ _ Hmid) as (m1 & -> & P1).
    destruct (IH _ _ H) as (m2 & -> & P2).
    exists (m1 ++ m2). rewrite app_assoc. split; [reflexivity|].
    apply Forall_app; now split.
Qed.

Lemma forEachChild_appends (B : Type) (P : B -> Prop)
    (f : list B -> list Node -> Node -> option Node -> result (list B)) :
  (forall acc prevs x next acc', f acc prevs x next = Ok acc' ->
     exists more, acc' = acc ++ more /\ Forall P more) ->
  forall xs prevs acc acc', forEachChild f prevs xs acc = Ok acc' ->
     exists more, acc' = acc ++ more /\ Forall P more.
Proof.
  intros Hf xs; induction xs as [|x xs IH]; intros prevs acc acc' H;
    simpl in H.
  - injection H as <-. exists []. now rewrite app_nil_r.
  - apply bind_Ok in H as (mid & Hmid & H).
    destruct (Hf _ _ _ _ _ Hmid) as (m1 & -> & P1).
    destruct (IH _ _ _ H) as (m2 & -> & P2).
    exists (m1 ++ m2). rewrite app_assoc. split; [reflexivity|].
    apply Forall_app; now split.
Qed.

Lemma isSynonymLabel_spec (label : option jstring) :
  isSynonymLabel label = true <->
  label = Some (js "Synonyme :") \/ label = Some (js "Synonymes :").
Proof.
  unfold isSynonymLabel. now rewrite orb_true_iff, !looseEq_Some.
Qed.

Section ExtractionFacts.

Variable resolve : jstring -> jstring -> result jstring.

(** One fragment contributes at most one onym, without a [url]; it
    carries an [info] only if the fragment reads like the last fragment of
    the run and the next sibling is a usage marker. *)
Lemma textOnymStep_shape (frags : list jstring) (next : option Node)
    (onyms : list Onym.t) (w : jstring) (onyms' : list Onym.t) :
  textOnymStep frags next onyms w = Ok onyms' ->
  exists more,
    onyms' = onyms ++ more /\
    List.map Onym.word more
      = List.map (fun w => Some (trim w)) (filter (fun w => negb (eqb w [])) [w]) /\
    Forall (fun o => Onym.url o = None) more /\
    Forall (fun o => Onym.info o <> None ->
                     fromEnd frags 1 = Some w /\
                     exists n, next = Some n /\
                       isTagOfClass n (js "indicateurDefinition") = Ok true)
           more.
Proof.
  unfold textOnymStep. cbn [filter]. destruct (negb (eqb w [])).
  - intros H. apply bind_Ok in H as (info & Hinfo & H). injection H as <-.
    eexists. split; [reflexivity|]. repeat split.
    + repeat constructor.
    + constructor; [|constructor]. cbn [Onym.info]. intros Hne.
      destruct (looseEq (fromEnd frags 1) w) eqn:E;
        [|injection Hinfo as <-; congruence].
      apply looseEq_Some in E. split; [exact E|].
      destruct next as [n|]; [|injection Hinfo as <-; congruence].
      exists n. split; [reflexivity|].
      apply bind_Ok in Hinfo as ([|] & Hm & Hinfo); [exact Hm|].
      injection Hinfo as <-; congruence.
  - intros H. injection H as <-. exists []. rewrite app_nil_r.
    repeat split; constructor.
Qed.

(** X16: the words of a run are its non-empty fragments, trimmed, in the
    order of the text, whether or not a usage marker follows the run. *)
Lemma getTextOnyms_words (d : jstring) (next : option Node) (l : list Onym.t) :
  getTextOnyms (TextNode d) next = Ok l ->
  List.map Onym.word l
    = List.map (fun w => Some (trim w))
               (filter (fun w => negb (eqb w [])) (split d (js " - "))).
Proof.
  unfold getTextOnyms. cbn [data the bind].
  generalize (split d (js " - ")) at 1 as frags.
  intros frags.
  assert (G : forall xs acc acc',
             forEach (textOnymStep frags next) xs acc = Ok acc' ->
             List.map Onym.word acc'
               = List.map Onym.word acc
                 ++ List.map (fun w => Some (trim w))
                             (filter (fun w => negb (eqb w [])) xs)).
  { induction xs as [|x xs IH]; intros acc acc' H; simpl in H.
    - injection H as <-. cbn. now rewrite app_nil_r.
    - apply bind_Ok in H as (mid & Hmid & H).
      apply textOnymStep_shape in Hmid as (more & -> & Hw & _).
      rewrite (IH _ _ H), map_app, Hw, <- app_assoc, <- map_app.
      change (x :: xs) with ([x] ++ xs). now rewrite filter_app. }
  intros H. now rewrite (G _ _ _ H).
Qed.

Lemma getTextOnyms_shape (t : Node) (next : option Node) (l : list Onym.t) :
  getTextOnyms t next = Ok l ->
  Forall (fun o => Onym.url o = None) l /\
  Forall (fun o => Onym.info o <> None ->
                   exists n, next = Some n /\
                     isTagOfClass n (js "indicateurDefinition") = Ok true) l.
Proof.
  unfold getTextOnyms. intros H. apply bind_Ok in H as (d & _ & H).
  apply forEach_appends with
    (P := fun o => Onym.url o = None /\
                   (Onym.info o <> None ->
                    exists n, next = Some n /\
                      isTagOfClass n (js "indicateurDefinition") = Ok true))
    in H.
  - destruct H as (more & -> & F). cbn [app].
    split; eapply Forall_impl; try exact F; cbn; tauto.
  - intros acc x acc' Hs.
    apply textOnymStep_shape in Hs as (more & -> & _ & U & I).
    exists more. split; [reflexivity|].
    apply Forall_forall. intros o Ho.
    rewrite Forall_forall in U, I. split; [now apply U|].
    intros Hne. now apply (I o Ho).
Qed.

(** One child of a synonym block: a text run contributes onyms without a
    [url], anything else contributes at most one onym, which has a [url]
    and no [info]. *)
Lemma onymStep_shape (lst prevs : list _) (child : Node) (next : option Node)
    (lst' : list Onym.t) :
  onymStep resolve lst prevs child next = Ok lst' ->
  exists more,
    lst' = lst ++ more /\
    (Dom.type child = text -> Forall (fun o => Onym.url o = None) more) /\
    (Dom.type child <> text ->
     Forall (fun o => Onym.info o = None /\ Onym.url o <> None) more).
Proof.
  unfold onymStep.
  destruct (NodeType_eqb (Dom.type child) text
            && negb (looseEq (data child) (js " - "))) eqn:E.
  - intros H. apply bind_Ok in H as (more & Hmore & H). injection H as <-.
    exists more. split; [reflexivity|].
    apply andb_true_iff in E as [E _]. split.
    + intros _. now apply getTextOnyms_shape in Hmore.
    + intros Hne. destruct (Dom.type child); simpl in E; congruence.
  - intros H. apply bind_Ok in H as ([|] & Hr & H).
    + apply bind_Ok in H as (link & _ & H).
      apply bind_Ok in H as (word & _ & H).
      apply bind_Ok in H as (a & _ & H).
      apply bind_Ok in H as (u & _ & H). injection H as <-.
      eexists. split; [reflexivity|]. split.
      * intros T. unfold isTagOfClass in Hr. rewrite T in Hr.
        simpl in Hr. discriminate.
      * intros _. constructor; [|constructor]. cbn. split; congruence.
    + injection H as <-. exists []. rewrite app_nil_r.
      split; [reflexivity|]. split; constructor.
Qed.


(** A block that was classified had a label two siblings before it, and
    its type is the one the text of that label decides. *)
Lemma getDefinitionOnyms_label (prevs : list Node) (onymContent : Node)
    (r : Onyms.t) :
  getDefinitionOnyms resolve prevs onymContent = Ok r ->
  exists prev label rest first,
    prevs = prev :: label :: rest /\
    firstChild label = Ok first /\
    (Onyms.type r = OnymType.synonyms <->
       data first = Some (js "Synonyme :") \/
       data first = Some (js "Synonymes :")) /\
    (Onyms.type r = OnymType.antonyms <->
       data first <> Some (js "Synonyme :") /\
       data first <> Some (js "Synonymes :")).
Proof.
  unfold getDefinitionOnyms, prevOf. intros H.
  apply bind_Ok in H as (prev & Hprev & H).
  apply bind_Ok in H as (label & Hlabel & H).
  apply bind_Ok in H as (labelText & Htext & H).
  apply bind_Ok in H as (cs & _ & H).
  apply bind_Ok in H as (lst & _ & H). injection H as <-.
  apply the_Ok in Hprev, Hlabel.
  destruct prevs as [|p [|l rest]]; try discriminate.
  injection Hprev as ->. injection Hlabel as ->.
  unfold firstChildData in Htext.
  apply bind_Ok in Htext as (first & Hfirst & Htext).
  injection Htext as <-.
  exists prev, label, rest, first.
  split; [reflexivity|]. split; [exact Hfirst|].
  cbn [Onyms.type]. pose proof (isSynonymLabel_spec (data first)) as S.
  destruct (isSynonymLabel (data first)).
  - assert (Y : data first = Some (js "Synonyme :") \/
                data first = Some (js "Synonymes :")) by now apply S.
    split; split.
    + intros _. exact Y.
    + reflexivity.
    + discriminate.
    + intros [N1 N2]. destruct Y; contradiction.
  - assert (N : ~ (data first = Some (js "Synonyme :") \/
                   data first = Some (js "Synonymes :")))
      by (intros Y; apply S in Y; discriminate).
    split; split.
    + discriminate.
    + intros Y. contradiction.
    + intros _. split; intros E; apply N; [left|right]; exact E.
    + reflexivity.
Qed.


End ExtractionFacts.

Section FieldFacts.

Variable resolve : jstring -> jstring -> result jstring.

(** C10: an onym never has both a [url] and an [info].  Every onym that
    [getTextOnyms] builds from a text run has no [url]; the onym built
    from a cross-reference element has a [url] and no [info]; hence every
    onym of the list of [getDefinitionOnyms] lacks one of the two. *)
Theorem onym_url_info_exclusive :
  (forall t next l,
      getTextOnyms t next = Ok l ->
      Forall (fun o => Onym.url o = None) l) /\
  (forall lst prevs child next lst',
      onymStep resolve lst prevs child next = Ok lst' ->
      exists more,
        lst' = lst ++ more /\
        (Dom.type child = text ->
         Forall (fun o => Onym.url o = None) more) /\
        (Dom.type child <> text ->
         Forall (fun o => Onym.info o = None /\ Onym.url o <> None) more)) /\
  (forall prevs onymContent r,
      getDefinitionOnyms resolve prevs onymContent = Ok r ->
      Forall (fun o => Onym.url o = None \/ Onym.info o = None)
             (Onyms.list r)).
Proof.
  split; [|split].
  - intros t next l H. now apply getTextOnyms_shape in H.
  - intros lst prevs child next lst' H. now apply onymStep_shape in H.
  - intros prevs onymContent r H. unfold getDefinitionOnyms in H.
    apply bind_Ok in H as (prev & _ & H).
    apply bind_Ok in H as (label & _ & H).
    apply bind_Ok in H as (labelText & _ & H).
    apply bind_Ok in H as (cs & _ & H).
    apply bind_Ok in H as (lst & Hl & H). injection H as <-.
    cbn [Onyms.list].
    apply forEachChild_appends with
      (P := fun o => Onym.url o = None \/ Onym.info o = None) in Hl.
    + destruct Hl as (more & -> & F). exact F.
    + intros acc ps x nx acc' Hs.
      apply onymStep_shape in Hs as (more & -> & T & E).
      exists more. split; [reflexivity|].
      destruct (Dom.type x) eqn:K;
        try (eapply Forall_impl; [|apply E; discriminate]; cbn; tauto).
      eapply Forall_impl; [|apply T; reflexivity]. cbn; tauto.
Qed.

(** The [num] field is [null] or a string, never a number. *)
Lemma definitionStep_num (def : Def.t) (prevs : list Node) (child : Node)
    (next : option Node) (def' : Def.t) :
  definitionStep resolve def prevs child next = Ok def' ->
  (forall z, Def.num def <> JsNum z) -> forall z, Def.num def' <> JsNum z.
Proof.
  unfold definitionStep. intros H I.
  destruct (NodeType_eqb (Dom.type child) text && _).
  { apply bind_Ok in H as (d & _ & H). injection H as <-. exact I. }
  destruct (NodeType_eqb (Dom.type child) tag);
    [|injection H as <-; exact I].
  apply bind_Ok in H as (a & _ & H).
  destruct (looseEq (attr a (js "class")) (js "numDef")).
  { apply bind_Ok in H as (d & _ & H). apply bind_Ok in H as (d' & _ & H).
    apply bind_Ok in H as (n & _ & H). injection H as <-. discriminate. }
  destruct (looseEq (attr a (js "class")) (js "Renvois")).
  { apply bind_Ok in H as (c & _ & H). apply bind_Ok in H as (d & _ & H).
    apply bind_Ok in H as (d' & _ & H). injection H as <-. exact I. }
  destruct (looseEq (attr a (js "class")) (js "ExempleDefinition")).
  { apply bind_Ok in H as (d & _ & H). apply bind_Ok in H as (d' & _ & H).
    injection H as <-. exact I. }
  destruct (looseEq (attr a (js "class")) (js "Synonymes")).
  { apply bind_Ok in H as (o & _ & H). injection H as <-.
    destruct (Onyms.type o); exact I. }
  injection H as <-. exact I.
Qed.

Lemma getDefinition_num (defContent : Node) (def : Def.t) :
  getDefinition resolve defContent = Ok def ->
  forall z, Def.num def <> JsNum z.
Proof.
  unfold getDefinition. intros H.
  apply bind_Ok in H as (cs & _ & H).
  apply bind_Ok in H as (d & Hd & H). injection H as <-.
  cbn [Def.set_definition Def.num].
  assert (G : forall xs prevs d0 d1,
             forEachChild (definitionStep resolve) prevs xs d0 = Ok d1 ->
             (forall z, Def.num d0 <> JsNum z) ->
             forall z, Def.num d1 <> JsNum z).
  { induction xs as [|x xs IH]; intros prevs d0 d1 E I; simpl in E.
    - injection E as <-. exact I.
    - apply bind_Ok in E as (mid & Hmid & E).
      eapply IH; [exact E|]. eapply definitionStep_num; eassumption. }
  eapply G; [exact Hd|]. discriminate.
Qed.

(** The text children of a definition block, taken alone. *)
Lemma definitionStep_text (def : Def.t) (prevs : list Node) (d : jstring)
    (next : option Node) :
  definitionStep resolve def prevs (TextNode d) next
    = Ok (if keptText d
          then Def.set_definition (Def.definition def ++ d) def
          else def).
Proof.
  unfold definitionStep, keptText. cbn [Dom.type NodeType_eqb data andb].
  destruct (negb (includes d newline) && negb (eqb (trim d) []));
    reflexivity.
Qed.

Lemma definition_text_loop (datas : list jstring) (prevs : list Node)
    (def : Def.t) :
  forEachChild (definitionStep resolve) prevs (List.map TextNode datas) def
    = Ok (Def.set_definition
            (Def.definition def ++ concat (filter keptText datas)) def).
Proof.
  revert prevs def; induction datas as [|d datas IH]; intros prevs def.
  - cbn. rewrite app_nil_r. now destruct def.
  - cbn [List.map forEachChild]. rewrite definitionStep_text.
    cbn [bind]. rewrite IH. cbn [filter].
    destruct (keptText d); [|reflexivity].
    destruct def. cbn. now rewrite <- app_assoc.
Qed.

Lemma wordsCatStep_text (wordsCat : list jstring) (d : jstring) :
  wordsCatStep wordsCat (TextNode d)
    = Ok (if includes d newline then wordsCat
          else wordsCat ++ split (trim d) (js ", ")).
Proof.
  unfold wordsCatStep. cbn. now destruct (includes d newline).
Qed.

(** C9 (amended): a text node is skipped when its text contains a newline
    anywhere, not only when it is a lone newline.  In the definition text
    every text child without a newline and not made of white space only is
    appended verbatim, in order, and every other text child is skipped;
    in the spelling lists every text child without a newline is trimmed
    and cut at ", ", and every text child with a newline is skipped. *)
Theorem text_nodes_with_newline_skipped :
  (forall def prevs d next,
      definitionStep resolve def prevs (TextNode d) next
        = Ok (if negb (includes d newline) && negb (eqb (trim d) [])
              then Def.set_definition (Def.definition def ++ d) def
              else def)) /\
  (forall kind name attrs datas,
      getDefinition resolve (Element kind name attrs (List.map TextNode datas))
        = Ok (Def.make JsNull
                (trim (replace (concat (filter keptText datas))
                               [nbsp; 58%N] []))
                [] [] [])) /\
  (forall wordsCat d,
      wordsCatStep wordsCat (TextNode d)
        = Ok (if includes d newline then wordsCat
              else wordsCat ++ split (trim d) (js ", "))) /\
  keptText newline = false.
Proof.
  split; [|split; [|split]].
  - intros. apply definitionStep_text.
  - intros. unfold getDefinition. cbn [children the bind].
    now rewrite definition_text_loop.
  - apply wordsCatStep_text.
  - reflexivity.
Qed.

End FieldFacts.

(* ================================================================== *)
(** ** Concrete runs *)
(* ================================================================== *)

(** The found page of "dormir", end to end. *)
Example search_dormir :
  search Sample.resolve Sample.redirect (fun _ => Sample.dormirPage)
         (js "dormir")
  = Ok Sample.dormirResult.
Proof. vm_compute. reflexivity. Qed.

(** A word the dictionary does not know. *)
Example search_dormirr :
  search Sample.resolve Sample.echo (fun _ => Sample.correctorPage)
         (js "dormirr")
  = Ok Sample.dormirrResult.
Proof. vm_compute. reflexivity. Qed.

(** A refused request. *)
Example search_unavailable :
  search Sample.resolve Sample.unavailable (fun _ => Sample.dormirPage)
         (js "dormir")
  = Throw (Error (searchMessage (js "dormir"))
             (Some (Error (js "Failed to fetch page https://www.larousse.fr/dictionnaires/francais/dormir, server responded with 503")
                          (Some (AxiosError (Some 503%N)))))).
Proof. vm_compute. reflexivity. Qed.

(** A found page without its category marker. *)
Example search_without_category :
  search Sample.resolve Sample.redirect (fun _ => Sample.emptyPage)
         (js "dormir")
  = Throw (Error (searchMessage (js "dormir")) (Some TypeError)).
Proof. vm_compute. reflexivity. Qed.

(** A label written without its capital classifies the block as antonyms. *)
Example lowercase_label_is_antonyms :
  getDefinition Sample.resolve Sample.dormirLowercaseLabel
  = Ok (Def.make JsNull [] [] [] [Sample.plain "reposer"]).
Proof. vm_compute. reflexivity. Qed.

(** C1, as stated, fails.  The word "24" answered at an entry numbered
    26524: the last segment of the URL is "26524", not the word, yet [find]
    is false.  The word "dormir" answered at a URL with a final slash: the
    last segment, the slash set aside, is the word, yet [find] is true. *)
Lemma find_is_not_segment_comparison :
  (search Sample.resolve Sample.redirect (fun _ => Sample.emptyPage) (js "24")
     = Ok Sample.suffixResult /\
   SearchResult.find Sample.suffixResult = false /\
   spec_lastSegment (SearchResult.url Sample.suffixResult)
     = Some (js "26524") /\
   spec_found (SearchResult.url Sample.suffixResult) (js "24") = true) /\
  (search Sample.resolve Sample.redirectSlash (fun _ => Sample.dormirPage)
          (js "dormir")
     = Ok Sample.dormirSlashResult /\
   SearchResult.find Sample.dormirSlashResult = true /\
   spec_lastSegment (SearchResult.url Sample.dormirSlashResult)
     = Some (js "dormir") /\
   spec_found (SearchResult.url Sample.dormirSlashResult) (js "dormir") = false).
Proof. vm_compute. repeat split; reflexivity. Qed.

Lemma search_find_suffix_witness :
  search Sample.resolve Sample.redirect (fun _ => Sample.emptyPage) (js "24")
    = Ok Sample.suffixResult /\
  (SearchResult.find Sample.suffixResult = false <->
     exists prefix, SearchResult.url Sample.suffixResult = prefix ++ js "24").
Proof.
  assert (H : search Sample.resolve Sample.redirect (fun _ => Sample.emptyPage)
                     (js "24") = Ok Sample.suffixResult)
    by (vm_compute; reflexivity).
  split; [exact H|].
  exact (proj1 (proj2 (search_find_suffix Sample.resolve Sample.redirect
                         (fun _ => Sample.emptyPage) (js "24") H))).
Defined.

(** C2, as stated, fails.  For "dormir" the resolved URL ends with
    "/dormir/26524" and has no final slash: its last segment is "26524",
    but the result is found with [word] "dormir". *)
Lemma word_is_not_last_segment :
  search Sample.resolve Sample.redirect (fun _ => Sample.dormirPage)
         (js "dormir")
    = Ok Sample.dormirResult /\
  SearchResult.find Sample.dormirResult = true /\
  endsWith (SearchResult.url Sample.dormirResult) (js "/") = false /\
  spec_lastSegment (SearchResult.url Sample.dormirResult) = Some (js "26524") /\
  SearchResult.word Sample.dormirResult = js "dormir" /\
  spec_lastSegment (SearchResult.url Sample.dormirResult)
    <> Some (SearchResult.word Sample.dormirResult).
Proof. vm_compute. repeat split; try reflexivity. discriminate. Qed.

Lemma search_word_field_witness :
  search Sample.resolve Sample.redirect (fun _ => Sample.dormirPage)
         (js "dormir")
    = Ok Sample.dormirResult /\
  SearchResult.find Sample.dormirResult = true /\
  fromEnd (split (SearchResult.url Sample.dormirResult) (js "/")) 2
    = Some (SearchResult.word Sample.dormirResult).
Proof.
  assert (H : search Sample.resolve Sample.redirect
                     (fun _ => Sample.dormirPage) (js "dormir")
              = Ok Sample.dormirResult)
    by (vm_compute; reflexivity).
  split; [exact H|]. split; [reflexivity|].
  exact (proj1 (search_word_field Sample.resolve Sample.redirect
                  (fun _ => Sample.dormirPage) (js "dormir") H) eq_refl).
Defined.

(** C3, as stated, fails.  The result for the unknown word "dormirr" is
    not found, and its [definitions] field is the empty object, not
    [null]. *)
Lemma definitions_not_null_when_not_found :
  search Sample.resolve Sample.echo (fun _ => Sample.correctorPage)
         (js "dormirr")
    = Ok Sample.dormirrResult /\
  SearchResult.find Sample.dormirrResult = false /\
  SearchResult.definitions Sample.dormirrResult = ObjEmpty /\
  isNull (SearchResult.definitions Sample.dormirrResult) = false /\
  ~ (isNull (SearchResult.definitions Sample.dormirrResult) = false <->
     SearchResult.find Sample.dormirrResult = true).
Proof.
  vm_compute. repeat split; try reflexivity. intros [H _].
  discriminate (H eq_refl).
Qed.

Lemma search_definitions_suggestions_witness :
  search Sample.resolve Sample.echo (fun _ => Sample.correctorPage)
         (js "dormirr")
    = Ok Sample.dormirrResult /\
  exists page,
    getPage Sample.resolve Sample.echo (js "dormirr") = Ok page /\
    SearchResult.definitions Sample.dormirrResult = ObjEmpty /\
    isNull (SearchResult.definitions Sample.dormirrResult) = false.
Proof.
  assert (H : search Sample.resolve Sample.echo
                     (fun _ => Sample.correctorPage) (js "dormirr")
              = Ok Sample.dormirrResult)
    by (vm_compute; reflexivity).
  split; [exact H|].
  destruct (search_definitions_suggestions Sample.resolve Sample.echo
              (fun _ => Sample.correctorPage) (js "dormirr") H)
    as (page & Hpage & _ & Hempty & Hnull & _).
  exists page. split; [exact Hpage|]. split; [|exact Hnull].
  apply Hempty. reflexivity.
Defined.

(** C4: the number of a definition is stored as text.  On the block
    [<li><span class="numDef">1.</span>Etre dans le sommeil</li>] the [num]
    field is the string "1", which is not the number 1. *)
Theorem numDef_stored_as_string :
  getDefinition Sample.resolve Sample.numbered
    = Ok (Def.make (JsStr (js "1")) (js "Etre dans le sommeil") [] [] []) /\
  JsStr (js "1") <> JsNum 1.
Proof. split; [vm_compute; reflexivity|discriminate]. Qed.

(** C5: a fragment that is not the last one receives the annotation.  In
    the run "beau - joli - beau" followed by the marker "(familier)", the
    first fragment reads like the last one and gets its [info] too. *)
Theorem repeated_fragment_gets_info :
  getTextOnyms (TextNode (js "beau - joli - beau")) (Some Sample.familier)
  = Ok [ Sample.noted "beau" "familier";
         Sample.plain "joli";
         Sample.noted "beau" "familier" ].
Proof. vm_compute. reflexivity. Qed.

(** C6: an onym with the empty word.  The text " " between a
    cross-reference and its usage marker is a non-empty fragment whose
    trimmed word is empty; the block of [Sample.dormir1] yields it after
    "reposer" and "roupiller". *)
Theorem blank_fragment_gives_empty_word :
  getTextOnyms (TextNode (js " ")) (Some Sample.familier)
    = Ok [Sample.noted "" "familier"] /\
  getDefinition Sample.resolve Sample.dormir1 = Ok Sample.dormir1Def /\
  In (Sample.noted "" "familier") (Def.synonyms Sample.dormir1Def).
Proof.
  split; [vm_compute; reflexivity|]. split; [vm_compute; reflexivity|].
  cbn. tauto.
Qed.


Lemma search_failure_wrapped_witness :
  getPage Sample.resolve Sample.unavailable (js "dormir")
    = Throw (Error (js "Failed to fetch page https://www.larousse.fr/dictionnaires/francais/dormir, server responded with 503")
                   (Some (AxiosError (Some 503%N)))) /\
  search Sample.resolve Sample.unavailable (fun _ => Sample.dormirPage)
         (js "dormir")
    = Throw (Error (searchMessage (js "dormir"))
               (Some (Error (js "Failed to fetch page https://www.larousse.fr/dictionnaires/francais/dormir, server responded with 503")
                            (Some (AxiosError (Some 503%N)))))).
Proof.
  assert (H : getPage Sample.resolve Sample.unavailable (js "dormir")
              = Throw (Error (js "Failed to fetch page https://www.larousse.fr/dictionnaires/francais/dormir, server responded with 503")
                             (Some (AxiosError (Some 503%N)))))
    by (vm_compute; reflexivity).
  split; [exact H|].
  exact (proj1 (proj2 (proj2 (search_failure_wrapped Sample.resolve
                                Sample.unavailable (fun _ => Sample.dormirPage)
                                (js "dormir")))) _ H).
Defined.

(** C9, as stated, fails.  The text "Fait de", a line break, "dormir" is
    neither a lone newline nor empty nor white space only, yet
    [getDefinition] leaves it out of the definition text. *)
Lemma text_with_inner_newline_dropped :
  spec_pureNewline (js "Fait de" ++ newline ++ js "dormir") = false /\
  spec_appendedText (js "Fait de" ++ newline ++ js "dormir") = true /\
  getDefinition Sample.resolve Sample.wrappedText
    = Ok (Def.make JsNull [] [] [] []).
Proof. vm_compute. repeat split; reflexivity. Qed.

Lemma onym_url_info_exclusive_witness :
  getDefinitionOnyms Sample.resolve (Sample.labelled "Synonymes :")
                     Sample.reposerBlock
    = Ok (Onyms.make OnymType.synonyms [Sample.plain "reposer"]) /\
  Forall (fun o => Onym.url o = None \/ Onym.info o = None)
         [Sample.plain "reposer"].
Proof.
  assert (H : getDefinitionOnyms Sample.resolve
                (Sample.labelled "Synonymes :") Sample.reposerBlock
              = Ok (Onyms.make OnymType.synonyms [Sample.plain "reposer"]))
    by (vm_compute; reflexivity).
  split; [exact H|].
  exact (proj2 (proj2 (onym_url_info_exclusive Sample.resolve)) _ _ _ H).
Defined.


(* ================================================================== *)
(** ** Further facts about strings *)
(* ================================================================== *)

Lemma endsWith_nil (s : jstring) : endsWith s [] = true.
Proof. apply endsWith_spec. exists s. now rewrite app_nil_r. Qed.

Lemma includes_single (c : N) (s : jstring) :
  includes s [c] = false <-> Forall (fun x => x <> c) s.
Proof.
  induction s as [|y s IH].
  - cbn. split; [constructor|reflexivity].
  - rewrite includes_unfold. cbn [startsWith]. rewrite andb_true_r.
    rewrite orb_false_iff, IH, N.eqb_neq. split.
    + intros [H F]. constructor; [congruence|exact F].
    + intros F. inversion F; subst. split; [congruence|assumption].
Qed.

(** Cutting at a one-unit separator leaves no separator in any fragment. *)
Lemma split_from_single_free (c : N) (s cur : jstring) :
  Forall (fun x => x <> c) cur ->
  Forall (fun f => Forall (fun x => x <> c) f) (split_from [c] 0 cur s).
Proof.
  revert cur; induction s as [|y s IH]; intros cur F.
  - cbn. constructor; [|constructor]. now apply Forall_rev.
  - cbn [split_from startsWith length Nat.sub]. rewrite andb_true_r.
    destruct (c =? y)%N eqn:E.
    + constructor; [now apply Forall_rev|]. apply IH. constructor.
    + apply IH. constructor; [|exact F].
      apply N.eqb_neq in E. congruence.
Qed.

Lemma split_single_free (c : N) (s f : jstring) :
  In f (split s [c]) -> includes f [c] = false.
Proof.
  intros H. apply includes_single.
  pose proof (@split_from_single_free c s [] (Forall_nil _)) as F.
  rewrite Forall_forall in F. now apply F.
Qed.

Lemma fromEnd_In (A : Type) (xs : list A) (k : nat) (a : A) :
  fromEnd xs k = Some a -> In a xs.
Proof.
  unfold fromEnd. destruct (k <=? length xs); [|discriminate].
  apply nth_error_In.
Qed.

Lemma trimStart_fix (s : jstring) :
  (forall c r, s = c :: r -> is_space c = false) -> trimStart s = s.
Proof.
  destruct s as [|c r]; [reflexivity|]. intros H. cbn.
  now rewrite (H c r eq_refl).
Qed.

Lemma trimStart_head (s : jstring) (c : N) (r : jstring) :
  trimStart s = c :: r -> is_space c = false.
Proof.
  induction s as [|y s IH]; [discriminate|]. cbn.
  destruct (is_space y) eqn:E; [exact IH|]. intros H. injection H as <- _.
  exact E.
Qed.

Lemma trimStart_suffix (s : jstring) : exists p, s = p ++ trimStart s.
Proof.
  induction s as [|y s [p IH]]; [now exists []|]. cbn.
  destruct (is_space y); [|now exists []].
  exists (y :: p). cbn. now rewrite <- IH.
Qed.

Lemma trimStart_idem (s : jstring) : trimStart (trimStart s) = trimStart s.
Proof.
  apply trimStart_fix. intros c r. apply trimStart_head.
Qed.

(** Trimming a trimmed string changes nothing. *)
Lemma trim_idem (s : jstring) : trim (trim s) = trim s.
Proof.
  unfold trim, trimEnd.
  set (t := trimStart s). set (u := trimStart (rev t)).
  assert (Hu : trimStart (rev u) = rev u).
  { apply trimStart_fix. intros c r E.
    destruct (trimStart_suffix (rev t)) as [p Hp]. fold u in Hp.
    apply (f_equal (@rev N)) in Hp.
    rewrite rev_involutive, rev_app_distr, E in Hp. cbn in Hp.
    apply (trimStart_head s (r := r ++ rev p)). exact Hp. }
  rewrite Hu, rev_involutive. unfold u. now rewrite trimStart_idem.
Qed.

Lemma trimStart_Forall (P : N -> Prop) (s : jstring) :
  Forall P s -> Forall P (trimStart s).
Proof.
  intros F. destruct (trimStart_suffix s) as [p Hp]. rewrite Hp in F.
  now apply Forall_app in F.
Qed.

Lemma trim_Forall (P : N -> Prop) (s : jstring) :
  Forall P s -> Forall P (trim s).
Proof.
  intros F. unfold trim, trimEnd.
  apply Forall_rev, trimStart_Forall, Forall_rev, trimStart_Forall, F.
Qed.

Lemma stripParens_free (s : jstring) :
  Forall (fun c => c <> 40%N /\ c <> 41%N) (stripParens s).
Proof.
  unfold stripParens. apply Forall_forall. intros c H.
  apply filter_In in H as [_ H]. apply negb_true_iff, orb_false_iff in H.
  destruct H as [A B]. now apply N.eqb_neq in A, B.
Qed.

(* ================================================================== *)
(** ** Loops that collect one item per element *)
(* ================================================================== *)

(** A loop whose step appends exactly one item related to the element, or
    throws, succeeds exactly when every element has its item, and then
    yields the items in the order of the elements. *)
Lemma forEach_collect (A B : Type) (R : A -> B -> Prop)
    (step : list B -> A -> result (list B)) :
  (forall acc x acc',
      step acc x = Ok acc' <-> exists y, R x y /\ acc' = acc ++ [y]) ->
  forall xs acc l,
    forEach step xs acc = Ok l <->
    exists ys, Forall2 R xs ys /\ l = acc ++ ys.
Proof.
  intros Hstep xs; induction xs as [|x xs IH]; intros acc l; cbn [forEach].
  - split.
    + intros H. injection H as <-. exists []. split; [constructor|].
      now rewrite app_nil_r.
    + intros (ys & F & ->). inversion F; subst. now rewrite app_nil_r.
  - split.
    + intros H. apply bind_Ok in H as (mid & Hmid & H).
      apply Hstep in Hmid as (y & Ry & ->).
      apply IH in H as (ys & F & ->).
      exists (y :: ys). split; [now constructor|].
      now rewrite <- app_assoc.
    + intros (ys & F & ->). inversion F as [|x' y xs' ys' Ry F']; subst.
      assert (E : step acc x = Ok (acc ++ [y])) by (apply Hstep; now exists y).
      rewrite E. cbn [bind]. apply IH. exists ys'. split; [exact F'|].
      now rewrite <- app_assoc.
Qed.

Lemma Forall2_length_eq (A B : Type) (R : A -> B -> Prop) (xs : list A)
    (ys : list B) :
  Forall2 R xs ys -> length ys = length xs.
Proof. induction 1; cbn; congruence. Qed.

(* ================================================================== *)
(** ** More on the orchestrator: [getWord], [getPage], [search] *)
(* ================================================================== *)

(** A word [getWord] returns is a piece of the URL and holds no slash. *)
Lemma getWord_piece (url w : jstring) :
  getWord url = Ok w ->
  In w (split url (js "/")) /\ includes w (js "/") = false.
Proof.
  intros H. apply getWord_Ok in H. apply fromEnd_In in H.
  split; [exact H|]. now apply (split_single_free 47%N url).
Qed.

(** X1: [getWord] throws exactly on a URL without any slash, and what it
    throws is the "Invalid argument" error quoting the URL, without a cause;
    a word it returns is one of the pieces of the URL and holds no slash. *)
Theorem getWord_slash (url : jstring) :
  (includes url (js "/") = false <->
   getWord url
     = Throw (Error (js "Invalid argument : failed to get word from url "
                       ++ [dquote] ++ url ++ [dquote] ++ js ".") None)) /\
  (forall w, getWord url = Ok w ->
             In w (split url (js "/")) /\ includes w (js "/") = false).
Proof.
  split.
  - pose proof (getWord_total url) as T. unfold getWord in *.
    destruct (fromEnd (split url (js "/")) 2) as [w|].
    + split; [|discriminate]. intros H.
      assert (E : includes url (js "/") = true) by (apply T; now exists w).
      congruence.
    + split; [reflexivity|]. intros _.
      destruct (includes url (js "/")); [|reflexivity].
      destruct (proj1 T eq_refl) as [w Hw]. discriminate.
  - intros w H. now apply getWord_piece.
Qed.

Section MoreSearchFacts.

Variable resolve : jstring -> jstring -> result jstring.
Variable axios_get : jstring -> result Response.t.
Variable load : jstring -> Content.

(** X2: the three outcomes of [getPage] once the URL is built.  A response
    is handed over unchanged.  A rejection that carries a response status is
    rethrown as an [Error] whose message names the URL and the status and
    whose cause is the rejection.  A rejection without a response (the
    server was not reached) makes the handler itself fail: [getPage] throws
    a bare [TypeError], and the error of [search] has that [TypeError], not
    the rejection, as its cause. *)
Theorem getPage_outcomes (word url : jstring) :
  resolve DICTIONNARY_URL word = Ok url ->
  (forall response,
      axios_get url = Ok response ->
      getPage resolve axios_get word = Ok response) /\
  (forall status,
      axios_get url = Throw (AxiosError (Some status)) ->
      getPage resolve axios_get word
        = Throw (Error (js "Failed to fetch page " ++ url
                          ++ js ", server responded with " ++ ofNumber status)
                       (Some (AxiosError (Some status))))) /\
  (axios_get url = Throw (AxiosError None) ->
   getPage resolve axios_get word = Throw TypeError /\
   search resolve axios_get load word
     = Throw (Error (searchMessage word) (Some TypeError))).
Proof.
  intros R. unfold search, searchBody, getPage. rewrite R. cbn [bind].
  split; [|split].
  - intros response ->. reflexivity.
  - intros status ->. reflexivity.
  - intros ->. split; reflexivity.
Qed.

(** X3: the empty word is never found.  Every string ends with the empty
    string, so whatever the server answers, a result for the empty word has
    [find] false, the empty word and the empty object as [definitions]. *)
Theorem search_empty_word (r : SearchResult.t) :
  search resolve axios_get load [] = Ok r ->
  SearchResult.find r = false /\
  SearchResult.word r = [] /\
  SearchResult.definitions r = ObjEmpty.
Proof.
  intros H. apply search_Ok, searchBody_Ok in H
    as (page & _ & _ & Hfind & Hword & Hdefs & _).
  rewrite endsWith_nil in Hfind. cbn in Hfind. rewrite Hfind in *.
  repeat split; congruence.
Qed.

(** X4: when [search] returns.  Once the page is fetched, a URL that ends
    with the word needs only the corrector suggestions to be readable, and
    the result is then the word itself with the empty object; a URL that
    does not end with the word needs [getWord], [getDefinitions] and the
    alternate-entry suggestions, and the result carries what they
    returned. *)
Theorem search_succeeds (word : jstring) (page : Response.t) :
  getPage resolve axios_get word = Ok page ->
  (forall s,
      endsWith (Response.responseUrl page) word = true ->
      getSuggestions resolve (load (Response.data page)) false = Ok s ->
      search resolve axios_get load word
        = Ok (SearchResult.make false word (Response.responseUrl page)
                                ObjEmpty s)) /\
  (forall w d s,
      endsWith (Response.responseUrl page) word = false ->
      getWord (Response.responseUrl page) = Ok w ->
      getDefinitions resolve (load (Response.data page)) = Ok d ->
      getSuggestions resolve (load (Response.data page)) true = Ok s ->
      search resolve axios_get load word
        = Ok (SearchResult.make true w (Response.responseUrl page) (Obj d) s)).
Proof.
  intros P. unfold search, searchBody. rewrite P. cbn [bind]. split.
  - intros s E S. rewrite E. cbn [bind]. now rewrite S.
  - intros w d s E W D S. rewrite E, W. cbn [bind]. rewrite D. cbn [bind].
    now rewrite S.
Qed.

(** X5: the word of a found result is a piece of the resolved URL and
    holds no slash. *)
Theorem search_found_word (word : jstring) (r : SearchResult.t) :
  search resolve axios_get load word = Ok r ->
  SearchResult.find r = true ->
  In (SearchResult.word r) (split (SearchResult.url r) (js "/")) /\
  includes (SearchResult.word r) (js "/") = false.
Proof.
  intros H F. apply search_Ok, searchBody_Ok in H
    as (page & _ & _ & _ & Hword & _).
  rewrite F in Hword. now apply getWord_piece in Hword.
Qed.

(** X6: a found page without its category marker never yields a result.
    [getGramCat] throws a [TypeError], [getDefinitions] returns no entry,
    and [search] on a URL that does not end with the word throws its
    wrapping error. *)
Theorem missing_category_fails (content : Content) :
  content SEL_GRAMCAT = [] ->
  getGramCat content = Throw TypeError /\
  (forall d, getDefinitions resolve content <> Ok d) /\
  (forall word page,
      getPage resolve axios_get word = Ok page ->
      load (Response.data page) = content ->
      endsWith (Response.responseUrl page) word = false ->
      exists cause,
        search resolve axios_get load word
          = Throw (Error (searchMessage word) (Some cause))).
Proof.
  intros E.
  assert (G : getGramCat content = Throw TypeError)
    by (unfold getGramCat; now rewrite E).
  assert (D : forall d, getDefinitions resolve content <> Ok d).
  { intros d H. unfold getDefinitions in H.
    apply bind_Ok in H as (ws & _ & H). rewrite G in H. discriminate. }
  repeat split; try assumption.
  intros word page P L N. unfold search.
  destruct (searchBody resolve axios_get load word) as [r|cause] eqn:B;
    [|now exists cause].
  exfalso. apply searchBody_Ok in B as (page' & P' & _ & Hfind & _ & Hd & _).
  rewrite P in P'. injection P' as <-. rewrite N in Hfind. cbn in Hfind.
  rewrite Hfind, L in Hd. apply bind_Ok in Hd as (d & Hd & _).
  exact (D d Hd).
Qed.

End MoreSearchFacts.

(* ================================================================== *)
(** ** More on the extractors *)
(* ================================================================== *)

Section MoreExtractionFacts.

Variable resolve : jstring -> jstring -> result jstring.

Lemma suggestion_step (content : Content) (acc : list Suggestion.t)
    (elem : Node) (acc' : list Suggestion.t) :
  (d <- firstChildData elem ;;
   d <- the d ;;
   a <- the (attribs elem) ;;
   u <- resolveTo resolve LAROUSSE_URL (attr a (js "href")) ;;
   Ok (acc ++ [Suggestion.make (trim d) u])) = Ok acc' <->
  exists y, isSuggestionOf resolve elem y /\ acc' = acc ++ [y].
Proof.
  split.
  - intros H. apply bind_Ok in H as (od & Hod & H).
    apply bind_Ok in H as (d & Hd & H). apply the_Ok in Hd. subst od.
    apply bind_Ok in H as (a & Ha & H). apply the_Ok in Ha.
    apply bind_Ok in H as (u & Hu & H). injection H as <-.
    unfold resolveTo in Hu. apply bind_Ok in Hu as (h & Hh & Hu).
    apply the_Ok in Hh.
    eexists. split; [|reflexivity]. now exists d, a, h, u.
  - intros (y & (d & a & h & u & Hd & Ha & Hh & Hu & ->) & ->).
    rewrite Hd. cbn [bind the]. rewrite Ha. cbn [bind the].
    unfold resolveTo. rewrite Hh. cbn [bind the]. now rewrite Hu.
Qed.

(** X7: [getSuggestions] is all or nothing and keeps the order of the page.
    It returns a list exactly when every matched element has a first child
    with text and an [href] that resolves; the list then has one suggestion
    per matched element, in document order, and is empty when nothing
    matches. *)
Theorem getSuggestions_collect (content : Content) (exist : bool)
    (l : list Suggestion.t) :
  (getSuggestions resolve content exist = Ok l <->
   Forall2 (isSuggestionOf resolve) (content (suggestionSelector exist)) l) /\
  (getSuggestions resolve content exist = Ok l ->
   length l = length (content (suggestionSelector exist))) /\
  (content (suggestionSelector exist) = [] ->
   getSuggestions resolve content exist = Ok []).
Proof.
  assert (C : getSuggestions resolve content exist = Ok l <->
              Forall2 (isSuggestionOf resolve)
                      (content (suggestionSelector exist)) l).
  { unfold getSuggestions. cbn zeta.
    rewrite (@forEach_collect _ _ (isSuggestionOf resolve) _
               (suggestion_step content)).
    split; [intros (ys & F & ->); exact F|]. intros F. now exists l. }
  split; [exact C|]. split.
  - intros H. apply C in H. now apply Forall2_length_eq in H.
  - intros E. unfold getSuggestions. cbn zeta. now rewrite E.
Qed.

(** The text accumulated by [getOrigin] holds no parenthesis. *)
Lemma origin_loop_free (cs : list Node) (origin origin' : jstring) :
  forEach (fun origin child =>
             if NodeType_eqb (Dom.type child) text
             then d <- the (data child) ;;
                  Ok (origin ++ stripParens d)
             else if NodeType_eqb (Dom.type child) tag
             then c <- firstChild child ;;
                  if NodeType_eqb (Dom.type c) tag
                  then d <- firstChildData c ;;
                       d <- the d ;;
                       Ok (origin ++ stripParens d)
                  else d <- the (data c) ;;
                       Ok (origin ++ stripParens d)
             else Ok origin) cs origin = Ok origin' ->
  exists more, origin' = origin ++ more /\
               Forall (fun c => c <> 40%N /\ c <> 41%N) more.
Proof.
  apply forEach_appends. clear. intros acc x acc' H.
  destruct (NodeType_eqb (Dom.type x) text).
  { apply bind_Ok in H as (d & _ & H). injection H as <-.
    eexists. split; [reflexivity|apply stripParens_free]. }
  destruct (NodeType_eqb (Dom.type x) tag).
  - apply bind_Ok in H as (c & _ & H).
    destruct (NodeType_eqb (Dom.type c) tag).
    + apply bind_Ok in H as (od & _ & H). apply bind_Ok in H as (d & _ & H).
      injection H as <-. eexists. split; [reflexivity|apply stripParens_free].
    + apply bind_Ok in H as (d & _ & H). injection H as <-.
      eexists. split; [reflexivity|apply stripParens_free].
  - injection H as <-. exists []. rewrite app_nil_r. split; constructor.
Qed.

(** X8: [getOrigin] degrades to the empty string when the page has no
    origin marker, and an origin it returns holds no parenthesis and has no
    white space at either end. *)
Theorem getOrigin_clean (content : Content) :
  (content SEL_ORIGIN = [] -> getOrigin content = Ok []) /\
  (forall origin,
      getOrigin content = Ok origin ->
      Forall (fun c => c <> 40%N /\ c <> 41%N) origin /\
      trim origin = origin).
Proof.
  split.
  - intros E. unfold getOrigin. now rewrite E.
  - intros origin H. unfold getOrigin in H. cbn zeta in H.
    apply bind_Ok in H as (raw & Hraw & H). injection H as <-.
    split; [|apply trim_idem]. apply trim_Forall.
    destruct (0 <? length (content SEL_ORIGIN)).
    + apply bind_Ok in Hraw as (e & _ & Hraw).
      apply bind_Ok in Hraw as (cs & _ & Hraw).
      apply origin_loop_free in Hraw as (more & -> & F). exact F.
    + injection Hraw as <-. constructor.
Qed.

(** X9: the suggestions' words and the grammatical category come out
    trimmed: trimming them again changes nothing. *)
Theorem extracted_text_trimmed (content : Content) :
  (forall exist l,
      getSuggestions resolve content exist = Ok l ->
      Forall (fun s => trim (Suggestion.word s) = Suggestion.word s) l) /\
  (forall gramCat,
      getGramCat content = Ok gramCat -> trim gramCat = gramCat).
Proof.
  split.
  - intros exist l H. unfold getSuggestions in H. cbn zeta in H.
    apply (@forEach_collect _ _ (isSuggestionOf resolve) _
             (suggestion_step content)) in H.
    destruct H as (ys & F & ->). cbn [app]. clear -F.
    induction F as [|x y xs ys (d & a & h & u & _ & _ & _ & _ & ->) F IH];
      constructor; [apply trim_idem|exact IH].
  - intros g H. unfold getGramCat in H.
    apply bind_Ok in H as (e & _ & H). apply bind_Ok in H as (od & _ & H).
    apply bind_Ok in H as (d & _ & H). injection H as <-. apply trim_idem.
Qed.

Lemma wordsCatStep_total (wordsCat : list jstring) (child : Node) :
  exists wordsCat', wordsCatStep wordsCat child = Ok wordsCat'.
Proof.
  unfold wordsCatStep. destruct child as [d|d|k n a cs]; cbn.
  - destruct (includes d newline); cbn; eauto.
  - eauto.
  - destruct k; cbn; eauto.
Qed.

Lemma wordsCat_loop_total (cs : list Node) (wordsCat : list jstring) :
  exists wordsCat', forEach wordsCatStep cs wordsCat = Ok wordsCat'.
Proof.
  revert wordsCat; induction cs as [|c cs IH]; intros wordsCat; cbn.
  - eauto.
  - destruct (wordsCatStep_total wordsCat c) as [w ->]. cbn. apply IH.
Qed.

(** X10: [getWords] cannot fail on elements.  When every node the header
    selector matches is an element, as a selector only matches elements,
    [getWords] returns one spelling list per header, in document order,
    whatever the children of the headers are. *)
Theorem getWords_total (content : Content) :
  Forall (fun h => exists cs, children h = Some cs) (content SEL_WORDS) ->
  exists words,
    getWords content = Ok words /\
    length words = length (content SEL_WORDS) /\
    Forall2 (fun h wordsCat =>
               exists cs, children h = Some cs /\
                          forEach wordsCatStep cs [] = Ok wordsCat)
            (content SEL_WORDS) words.
Proof.
  intros F. unfold getWords.
  set (R := fun h wordsCat =>
              exists cs, children h = Some cs /\
                         forEach wordsCatStep cs [] = Ok wordsCat).
  assert (S : forall acc x acc',
             (cs <- the (children x) ;;
              wordsCat <- forEach wordsCatStep cs [] ;;
              Ok (acc ++ [wordsCat])) = Ok acc' <->
             exists y, R x y /\ acc' = acc ++ [y]).
  { intros acc x acc'. split.
    - intros H. apply bind_Ok in H as (cs & Hcs & H). apply the_Ok in Hcs.
      apply bind_Ok in H as (w & Hw & H). injection H as <-.
      exists w. split; [now exists cs|reflexivity].
    - intros (y & (cs & Hcs & Hw) & ->). rewrite Hcs. cbn [the bind].
      now rewrite Hw. }
  assert (E : exists words, Forall2 R (content SEL_WORDS) words).
  { induction F as [|h hs (cs & Hcs) _ (ws & IH)].
    - exists []. constructor.
    - destruct (wordsCat_loop_total cs []) as [w Hw].
      exists (w :: ws). constructor; [now exists cs|exact IH]. }
  destruct E as [words E]. exists words. split; [|split].
  - apply (proj2 (@forEach_collect _ _ R _ S _ _ _)). now exists words.
  - now apply Forall2_length_eq in E.
  - exact E.
Qed.

(** X11: [getDefinitionsList] is all or nothing and keeps the order of the
    page: it returns a list exactly when [getDefinition] succeeds on every
    matched block, and the list is then made of their definitions, block by
    block; a single block that fails makes the whole list fail. *)
Theorem getDefinitionsList_collect (content : Content) :
  (forall l,
      getDefinitionsList resolve content = Ok l <->
      Forall2 (fun block d => getDefinition resolve block = Ok d)
              (content SEL_DEFINITIONS) l) /\
  (forall block e,
      In block (content SEL_DEFINITIONS) ->
      getDefinition resolve block = Throw e ->
      forall l, getDefinitionsList resolve content <> Ok l).
Proof.
  assert (C : forall l,
             getDefinitionsList resolve content = Ok l <->
             Forall2 (fun block d => getDefinition resolve block = Ok d)
                     (content SEL_DEFINITIONS) l).
  { intros l. unfold getDefinitionsList.
    assert (S : forall acc x acc',
               (definition <- getDefinition resolve x ;;
                Ok (acc ++ [definition])) = Ok acc' <->
               exists d, getDefinition resolve x = Ok d /\ acc' = acc ++ [d]).
    { intros acc x acc'. split.
      - intros H. apply bind_Ok in H as (d & Hd & H). injection H as <-.
        now exists d.
      - intros (d & Hd & ->). now rewrite Hd. }
    rewrite (@forEach_collect _ _
               (fun block d => getDefinition resolve block = Ok d) _ S).
    split; [intros (ys & F & ->); exact F|]. intros F. now exists l. }
  split; [exact C|].
  intros block e I T l H. apply C in H.
  clear C. induction H as [|b d bs ds Hb F IH]; [contradiction|].
  destruct I as [->|I]; [congruence|now apply IH].
Qed.

End MoreExtractionFacts.

(* ================================================================== *)
(** ** More on [getDefinition] and the onyms *)
(* ================================================================== *)

Section MoreDefinitionFacts.

Variable resolve : jstring -> jstring -> result jstring.

Lemma definitionStep_invariant (def : Def.t) (prevs : list Node)
    (child : Node) (next : option Node) (def' : Def.t) :
  definitionStep resolve def prevs child next = Ok def' ->
  definitionInvariant def -> definitionInvariant def'.
Proof.
  unfold definitionStep. intros H I.
  destruct (NodeType_eqb (Dom.type child) text && _).
  { apply bind_Ok in H as (d & _ & H). injection H as <-. exact I. }
  destruct (NodeType_eqb (Dom.type child) tag);
    [|injection H as <-; exact I].
  apply bind_Ok in H as (a & _ & H).
  destruct (looseEq (attr a (js "class")) (js "numDef")).
  { apply bind_Ok in H as (od & _ & H). apply bind_Ok in H as (d & _ & H).
    apply bind_Ok in H as (n & Hn & H). injection H as <-.
    apply the_Ok, nth_error_In in Hn.
    split; [|exact (proj2 I)]. right. exists n. split; [reflexivity|].
    now apply (split_single_free 46%N (trim d)). }
  destruct (looseEq (attr a (js "class")) (js "Renvois")).
  { apply bind_Ok in H as (c & _ & H). apply bind_Ok in H as (od & _ & H).
    apply bind_Ok in H as (d & _ & H). injection H as <-. exact I. }
  destruct (looseEq (attr a (js "class")) (js "ExempleDefinition")).
  { apply bind_Ok in H as (od & _ & H). apply bind_Ok in H as (d & _ & H).
    injection H as <-. split; [exact (proj1 I)|]. cbn.
    apply Forall_app. split; [exact (proj2 I)|].
    constructor; [apply trim_idem|constructor]. }
  destruct (looseEq (attr a (js "class")) (js "Synonymes")).
  { apply bind_Ok in H as (o & _ & H). injection H as <-.
    destruct (Onyms.type o); exact I. }
  injection H as <-. exact I.
Qed.

(** X12: what a definition looks like.  In every definition [getDefinition]
    returns, [num] is [null] or a string that holds no dot, the definition
    text has no white space at either end, and every example is trimmed. *)
Theorem getDefinition_shape (defContent : Node) (def : Def.t) :
  getDefinition resolve defContent = Ok def ->
  (Def.num def = JsNull \/
   exists n, Def.num def = JsStr n /\ includes n (js ".") = false) /\
  trim (Def.definition def) = Def.definition def /\
  Forall (fun e => trim e = e) (Def.examples def).
Proof.
  unfold getDefinition. intros H.
  apply bind_Ok in H as (cs & _ & H).
  apply bind_Ok in H as (d & Hd & H). injection H as <-.
  assert (G : forall xs prevs d0 d1,
             forEachChild (definitionStep resolve) prevs xs d0 = Ok d1 ->
             definitionInvariant d0 -> definitionInvariant d1).
  { induction xs as [|x xs IH]; intros prevs d0 d1 E I; simpl in E.
    - injection E as <-. exact I.
    - apply bind_Ok in E as (mid & Hmid & E).
      eapply IH; [exact E|]. eapply definitionStep_invariant; eassumption. }
  assert (I : definitionInvariant d).
  { eapply G; [exact Hd|]. split; [now left|constructor]. }
  destruct I as [In Ie]. cbn [Def.set_definition Def.num Def.definition
                              Def.examples].
  split; [exact In|]. split; [apply trim_idem|exact Ie].
Qed.

(** X13: a synonym block needs two earlier siblings.  With fewer than two
    siblings before the block, [getDefinitionOnyms] throws a [TypeError];
    so a definition block that opens with its synonym block makes
    [getDefinition] throw a [TypeError]. *)
Theorem synonym_block_needs_label :
  (forall prevs onymContent,
      length prevs < 2 ->
      getDefinitionOnyms resolve prevs onymContent = Throw TypeError) /\
  (forall kind name attrs name' attrs' cs rest,
      attr attrs' (js "class") = Some (js "Synonymes") ->
      getDefinition resolve
        (Element kind name attrs (Element Tag name' attrs' cs :: rest))
        = Throw TypeError).
Proof.
  assert (A : forall prevs onymContent,
             length prevs < 2 ->
             getDefinitionOnyms resolve prevs onymContent = Throw TypeError).
  { intros [|p [|q prevs]] onymContent L; cbn in L; try lia; reflexivity. }
  split; [exact A|].
  intros kind name attrs name' attrs' cs rest C.
  unfold getDefinition. cbn [children the bind forEachChild].
  unfold definitionStep. cbn [Dom.type NodeType_eqb andb attribs the bind].
  rewrite C.
  change (looseEq (Some (js "Synonymes")) (js "numDef")) with false.
  change (looseEq (Some (js "Synonymes")) (js "Renvois")) with false.
  change (looseEq (Some (js "Synonymes")) (js "ExempleDefinition")) with false.
  change (looseEq (Some (js "Synonymes")) (js "Synonymes")) with true.
  cbn iota. rewrite A by (cbn; lia). reflexivity.
Qed.

Lemma textOnymStep_plain (frags : list jstring) (next : option Node)
    (onyms : list Onym.t) (w : jstring) :
  next = None \/
  (exists n, next = Some n /\
             isTagOfClass n (js "indicateurDefinition") = Ok false) ->
  textOnymStep frags next onyms w
    = Ok (onyms ++ List.map plainOnym (filter keptFragment [w])).
Proof.
  intros N. unfold textOnymStep, keptFragment. cbn [filter].
  destruct (negb (eqb w [])); [|now rewrite app_nil_r].
  destruct (looseEq (fromEnd frags 1) w); [|reflexivity].
  destruct N as [->|(n & -> & M)]; [reflexivity|]. now rewrite M.
Qed.

(** X14: a text run without a usage marker after it.  When the run has no
    next sibling, or the next sibling is not an element of class
    "indicateurDefinition", [getTextOnyms] never throws: it returns one
    onym per non-empty fragment, in the order of the text, each with the
    trimmed fragment as its word and neither [url] nor [info]. *)
Theorem getTextOnyms_plain (d : jstring) (next : option Node) :
  next = None \/
  (exists n, next = Some n /\
             isTagOfClass n (js "indicateurDefinition") = Ok false) ->
  getTextOnyms (TextNode d) next
    = Ok (List.map plainOnym (filter keptFragment (split d (js " - ")))).
Proof.
  intros N. unfold getTextOnyms. cbn [data the bind].
  generalize (split d (js " - ")) at 1 as frags. intros frags.
  assert (G : forall xs acc,
             forEach (textOnymStep frags next) xs acc
               = Ok (acc ++ List.map plainOnym (filter keptFragment xs))).
  { induction xs as [|x xs IH]; intros acc; cbn [forEach].
    - cbn. now rewrite app_nil_r.
    - rewrite (@textOnymStep_plain frags next acc x N). cbn [bind].
      rewrite IH, <- app_assoc, <- map_app.
      change (x :: xs) with ([x] ++ xs). now rewrite filter_app. }
  apply G.
Qed.

(** X15: where a usage note can appear.  In the onyms of a text run, an
    [info] is present only on an onym whose word is the trimmed last
    fragment of the run, and only when the next sibling of the run is an
    element of class "indicateurDefinition". *)
Theorem getTextOnyms_info (d : jstring) (next : option Node)
    (l : list Onym.t) :
  getTextOnyms (TextNode d) next = Ok l ->
  Forall (fun o =>
            Onym.info o <> None ->
            Onym.word o = option_map trim (fromEnd (split d (js " - ")) 1) /\
            exists n, next = Some n /\
                      isTagOfClass n (js "indicateurDefinition") = Ok true)
         l.
Proof.
  unfold getTextOnyms. cbn [data the bind]. intros H.
  apply forEach_appends with
    (P := fun o =>
            Onym.info o <> None ->
            Onym.word o = option_map trim (fromEnd (split d (js " - ")) 1) /\
            exists n, next = Some n /\
                      isTagOfClass n (js "indicateurDefinition") = Ok true)
    in H.
  - destruct H as (more & -> & F). exact F.
  - intros acc w acc' Hs.
    apply textOnymStep_shape in Hs as (more & -> & Hw & _ & I).
    exists more. split; [reflexivity|].
    cbn [filter] in Hw. destruct (negb (eqb w [])).
    + destruct more as [|o [|o' more]]; try discriminate.
      injection Hw as Hw. constructor; [|constructor].
      intros Hne. apply Forall_inv in I. destruct (I Hne) as [E M].
      rewrite E. cbn. split; [exact Hw|exact M].
    + destruct more; [constructor|discriminate].
Qed.

End MoreDefinitionFacts.

(* ================================================================== *)
(** ** Further concrete runs *)
(* ================================================================== *)

Lemma getWord_slash_witness :
  includes (js "dormir") (js "/") = false /\
  getWord (js "dormir")
    = Throw (Error (js "Invalid argument : failed to get word from url "
                      ++ [dquote] ++ js "dormir" ++ [dquote] ++ js ".") None).
Proof.
  assert (H : includes (js "dormir") (js "/") = false) by reflexivity.
  split; [exact H|].
  exact (proj1 (proj1 (getWord_slash (js "dormir"))) H).
Defined.

Lemma getPage_outcomes_witness :
  Sample.resolve DICTIONNARY_URL (js "dormir")
    = Ok (DICTIONNARY_URL ++ js "dormir") /\
  Sample.offline (DICTIONNARY_URL ++ js "dormir") = Throw (AxiosError None) /\
  getPage Sample.resolve Sample.offline (js "dormir") = Throw TypeError /\
  search Sample.resolve Sample.offline (fun _ => Sample.emptyPage) (js "dormir")
    = Throw (Error (searchMessage (js "dormir")) (Some TypeError)).
Proof.
  assert (R : Sample.resolve DICTIONNARY_URL (js "dormir")
              = Ok (DICTIONNARY_URL ++ js "dormir")) by reflexivity.
  assert (A : Sample.offline (DICTIONNARY_URL ++ js "dormir")
              = Throw (AxiosError None)) by reflexivity.
  split; [exact R|]. split; [exact A|].
  exact (proj2 (proj2 (@getPage_outcomes Sample.resolve Sample.offline
                         (fun _ => Sample.emptyPage) (js "dormir")
                         (DICTIONNARY_URL ++ js "dormir") R)) A).
Defined.

Lemma search_empty_word_witness :
  search Sample.resolve Sample.echo (fun _ => Sample.emptyPage) []
    = Ok (SearchResult.make false [] DICTIONNARY_URL ObjEmpty []) /\
  SearchResult.find (SearchResult.make false [] DICTIONNARY_URL ObjEmpty [])
    = false.
Proof.
  assert (H : search Sample.resolve Sample.echo (fun _ => Sample.emptyPage) []
              = Ok (SearchResult.make false [] DICTIONNARY_URL ObjEmpty []))
    by (vm_compute; reflexivity).
  split; [exact H|].
  exact (proj1 (@search_empty_word Sample.resolve Sample.echo
                  (fun _ => Sample.emptyPage) _ H)).
Defined.

Lemma search_succeeds_witness :
  getPage Sample.resolve Sample.echo (js "dormirr")
    = Ok (Response.make [] (DICTIONNARY_URL ++ js "dormirr")) /\
  search Sample.resolve Sample.echo (fun _ => Sample.correctorPage)
         (js "dormirr")
    = Ok Sample.dormirrResult.
Proof.
  assert (P : getPage Sample.resolve Sample.echo (js "dormirr")
              = Ok (Response.make [] (DICTIONNARY_URL ++ js "dormirr")))
    by (vm_compute; reflexivity).
  split; [exact P|].
  refine (proj1 (@search_succeeds Sample.resolve Sample.echo
                   (fun _ => Sample.correctorPage) (js "dormirr") _ P)
                _ _ _).
  - vm_compute. reflexivity.
  - vm_compute. reflexivity.
Defined.

Lemma search_found_word_witness :
  search Sample.resolve Sample.redirect (fun _ => Sample.dormirPage)
         (js "dormir")
    = Ok Sample.dormirResult /\
  includes (SearchResult.word Sample.dormirResult) (js "/") = false.
Proof.
  assert (H : search Sample.resolve Sample.redirect
                     (fun _ => Sample.dormirPage) (js "dormir")
              = Ok Sample.dormirResult)
    by (vm_compute; reflexivity).
  split; [exact H|].
  exact (proj2 (@search_found_word Sample.resolve Sample.redirect
                  (fun _ => Sample.dormirPage) (js "dormir") _ H eq_refl)).
Defined.

Lemma missing_category_fails_witness :
  Sample.emptyPage SEL_GRAMCAT = [] /\
  getGramCat Sample.emptyPage = Throw TypeError.
Proof.
  assert (E : Sample.emptyPage SEL_GRAMCAT = []) by reflexivity.
  split; [exact E|].
  exact (proj1 (@missing_category_fails Sample.resolve Sample.redirect
                  (fun _ => Sample.emptyPage) Sample.emptyPage E)).
Defined.

Lemma getSuggestions_collect_witness :
  getSuggestions Sample.resolve Sample.correctorPage false
    = Ok (SearchResult.suggestions Sample.dormirrResult) /\
  length (SearchResult.suggestions Sample.dormirrResult)
    = length (Sample.correctorPage (suggestionSelector false)).
Proof.
  assert (H : getSuggestions Sample.resolve Sample.correctorPage false
              = Ok (SearchResult.suggestions Sample.dormirrResult))
    by (vm_compute; reflexivity).
  split; [exact H|].
  exact (proj1 (proj2 (@getSuggestions_collect Sample.resolve
                         Sample.correctorPage false _)) H).
Defined.

Lemma getOrigin_clean_witness :
  getOrigin Sample.originPage = Ok (js "latin dormire") /\
  Forall (fun c => c <> 40%N /\ c <> 41%N) (js "latin dormire") /\
  trim (js "latin dormire") = js "latin dormire".
Proof.
  assert (H : getOrigin Sample.originPage = Ok (js "latin dormire"))
    by (vm_compute; reflexivity).
  split; [exact H|].
  exact (proj2 (getOrigin_clean Sample.originPage) _ H).
Defined.

Lemma extracted_text_trimmed_witness :
  getGramCat Sample.dormirPage = Ok (js "verbe intransitif") /\
  trim (js "verbe intransitif") = js "verbe intransitif".
Proof.
  assert (H : getGramCat Sample.dormirPage = Ok (js "verbe intransitif"))
    by (vm_compute; reflexivity).
  split; [exact H|].
  exact (proj2 (@extracted_text_trimmed Sample.resolve Sample.dormirPage) _ H).
Defined.

Lemma getWords_total_witness :
  Forall (fun h => exists cs, children h = Some cs)
         (Sample.dormirPage SEL_WORDS) /\
  exists words,
    getWords Sample.dormirPage = Ok words /\
    length words = length (Sample.dormirPage SEL_WORDS).
Proof.
  assert (F : Forall (fun h => exists cs, children h = Some cs)
                     (Sample.dormirPage SEL_WORDS)).
  { change (Sample.dormirPage SEL_WORDS)
      with [Sample.elem "h2" "AdresseDefinition" [Sample.txt "dormir"]].
    constructor; [|constructor]. eexists. reflexivity. }
  split; [exact F|].
  destruct (getWords_total Sample.dormirPage F) as (words & H & L & _).
  exists words. split; [exact H|exact L].
Defined.

Lemma getDefinitionsList_collect_witness :
  Forall2 (fun block d => getDefinition Sample.resolve block = Ok d)
          (Sample.dormirPage SEL_DEFINITIONS) [Sample.dormir1Def] /\
  getDefinitionsList Sample.resolve Sample.dormirPage
    = Ok [Sample.dormir1Def].
Proof.
  assert (F : Forall2 (fun block d => getDefinition Sample.resolve block = Ok d)
                      (Sample.dormirPage SEL_DEFINITIONS) [Sample.dormir1Def]).
  { change (Sample.dormirPage SEL_DEFINITIONS) with [Sample.dormir1].
    constructor; [vm_compute; reflexivity|constructor]. }
  split; [exact F|].
  exact (proj2 (proj1 (@getDefinitionsList_collect Sample.resolve
                         Sample.dormirPage) _) F).
Defined.

Lemma getDefinition_shape_witness :
  getDefinition Sample.resolve Sample.dormir1 = Ok Sample.dormir1Def /\
  trim (Def.definition Sample.dormir1Def) = Def.definition Sample.dormir1Def.
Proof.
  assert (H : getDefinition Sample.resolve Sample.dormir1
              = Ok Sample.dormir1Def)
    by (vm_compute; reflexivity).
  split; [exact H|].
  exact (proj1 (proj2 (@getDefinition_shape Sample.resolve _ _ H))).
Defined.

Lemma synonym_block_needs_label_witness :
  attr [(js "class", js "Synonymes")] (js "class") = Some (js "Synonymes") /\
  getDefinition Sample.resolve Sample.unlabelled = Throw TypeError.
Proof.
  assert (C : attr [(js "class", js "Synonymes")] (js "class")
              = Some (js "Synonymes")) by reflexivity.
  split; [exact C|].
  exact (proj2 (synonym_block_needs_label Sample.resolve)
               Tag (js "li") [(js "class", js "DivisionDefinition")]
               (js "p") [(js "class", js "Synonymes")]
               [Sample.txt "reposer"] [] C).
Defined.

Lemma getTextOnyms_plain_witness :
  getTextOnyms (TextNode (js " - beau - joli")) None
    = Ok (List.map plainOnym
            (filter keptFragment (split (js " - beau - joli") (js " - ")))).
Proof.
  exact (@getTextOnyms_plain (js " - beau - joli") None (or_introl eq_refl)).
Defined.

Lemma getTextOnyms_info_witness :
  getTextOnyms (TextNode (js "reposer")) (Some Sample.familier)
    = Ok [Sample.noted "reposer" "familier"] /\
  Forall (fun o =>
            Onym.info o <> None ->
            Onym.word o
              = option_map trim (fromEnd (split (js "reposer") (js " - ")) 1) /\
            exists n, Some Sample.familier = Some n /\
                      isTagOfClass n (js "indicateurDefinition") = Ok true)
         [Sample.noted "reposer" "familier"].
Proof.
  assert (H : getTextOnyms (TextNode (js "reposer")) (Some Sample.familier)
              = Ok [Sample.noted "reposer" "familier"])
    by (vm_compute; reflexivity).
  split; [exact H|].
  exact (@getTextOnyms_info (js "reposer") (Some Sample.familier) _ H).
Defined.

Lemma getTextOnyms_words_witness :
  getTextOnyms (TextNode (js "beau - joli")) (Some Sample.familier)
    = Ok [Sample.plain "beau"; Sample.noted "joli" "familier"] /\
  List.map Onym.word [Sample.plain "beau"; Sample.noted "joli" "familier"]
    = List.map (fun w => Some (trim w))
               (filter (fun w => negb (eqb w []))
                       (split (js "beau - joli") (js " - "))).
Proof.
  assert (H : getTextOnyms (TextNode (js "beau - joli")) (Some Sample.familier)
              = Ok [Sample.plain "beau"; Sample.noted "joli" "familier"])
    by (vm_compute; reflexivity).
  split; [exact H|].
  exact (@getTextOnyms_words (js "beau - joli") (Some Sample.familier) _ H).
Defined.

(* ================================================================== *)
(** ** The cause of a failed fetch *)
(* ================================================================== *)

Section FetchCause.

Variable resolve : jstring -> jstring -> result jstring.
Variable axios_get : jstring -> result Response.t.
Variable load : jstring -> Content.

(** C8: the error of [search] does not always carry the underlying cause.
    When the fetch is rejected without a response (the server was not
    reached), the handler of [getPage] fails while reading
    [error.response.status], before it builds its own error: [search] then
    throws its wrapping error with a bare [TypeError] as cause, and the
    rejection is nowhere in the chain of causes.  When the rejection carries
    a response status, the chain of causes of the error does hold it. *)
Theorem search_loses_unanswered_rejection (word url : jstring) :
  resolve DICTIONNARY_URL word = Ok url ->
  (axios_get url = Throw (AxiosError None) ->
   search resolve axios_get load word
     = Throw (Error (searchMessage word) (Some TypeError)) /\
   ~ In (AxiosError None)
        (causes (Error (searchMessage word) (Some TypeError)))) /\
  (forall status,
      axios_get url = Throw (AxiosError (Some status)) ->
      exists e,
        search resolve axios_get load word = Throw e /\
        In (AxiosError (Some status)) (causes e)).
Proof.
  intros R. split.
  - intros A. split.
    + unfold search, searchBody, getPage. rewrite R. cbn [bind].
      rewrite A. reflexivity.
    + cbn. intros [H|[H|[]]]; discriminate.
  - intros status A. eexists. split.
    + unfold search, searchBody, getPage. rewrite R. cbn [bind].
      rewrite A. reflexivity.
    + cbn. right. right. left. reflexivity.
Qed.

End FetchCause.

Lemma search_loses_unanswered_rejection_witness :
  Sample.resolve DICTIONNARY_URL (js "dormir")
    = Ok (DICTIONNARY_URL ++ js "dormir") /\
  Sample.offline (DICTIONNARY_URL ++ js "dormir") = Throw (AxiosError None) /\
  search Sample.resolve Sample.offline (fun _ => Sample.dormirPage)
         (js "dormir")
    = Throw (Error (searchMessage (js "dormir")) (Some TypeError)) /\
  ~ In (AxiosError None)
       (causes (Error (searchMessage (js "dormir")) (Some TypeError))).
Proof.
  assert (R : Sample.resolve DICTIONNARY_URL (js "dormir")
              = Ok (DICTIONNARY_URL ++ js "dormir")) by reflexivity.
  assert (A : Sample.offline (DICTIONNARY_URL ++ js "dormir")
              = Throw (AxiosError None)) by reflexivity.
  split; [exact R|]. split; [exact A|].
  exact (proj1 (@search_loses_unanswered_rejection Sample.resolve
                  Sample.offline (fun _ => Sample.dormirPage) (js "dormir")
                  (DICTIONNARY_URL ++ js "dormir") R) A).
Defined.
